(** * flask-restle: a shallow embedding of [flask_restle/__init__.py]

    The module is a thin layer over Flask: a base view class [API] that
    dispatches by HTTP verb and wraps handler results in JSON responses, an
    exception class [api_error], the route helper [register_api], a JSON
    encoder hook and four URL converters given by regular expressions.

    Python objects are modelled by the inductive [pyval]; exceptions by
    [pyexn]; code that may raise returns a [result]; code that assigns to
    attributes of [self] threads the instance through a state-and-error
    monad.  The Flask and Werkzeug pieces the module calls but does not
    define ([json.dumps], [json.JSONEncoder.default],
    [current_app.response_class]) are Section variables. *)

From Stdlib Require Import ZArith Ascii String List Bool Lia DecimalString.
From stdpp Require Import base option gmap strings list.

Set Warnings "-register-all".
Open Scope string_scope.
Open Scope Z_scope.

(* ================================================================== *)
(** * Python values                                                    *)
(* ================================================================== *)

Module Py.

(** Runtime classes.  The module compares classes for identity only
    ([type(x) is C], [type(x) == C]); [Subclass n b] is a class named [n]
    declared with base [b]. *)
Inductive pyclass :=
| NoneType
| int
| str
| list_cls
| dict_cls
| set_cls
| Arrow
| BaseResponse
| object
| Subclass (name : string) (base : pyclass).

#[global] Instance pyclass_eq_dec : EqDecision pyclass.
Proof. solve_decision. Defined.

(** [issubclass c d] *)
Fixpoint issubclass (c d : pyclass) : bool :=
  bool_decide (c = d) ||
  match c with
  | Subclass _ b => issubclass b d
  | _ => false
  end.

(** What [current_app.response_class(body, status=, mimetype=, headers=)]
    is given; the response object keeps these four arguments. *)
Record response := mkResponse {
  body : option string;
  status : Z;
  mimetype : option string;
  headers : gmap string string
}.

(** Values.  An object of a built-in class carries no instance attributes;
    an object of a subclass carries the subclass name and what
    [getattr(obj, "json_serializer", None)] finds on it. *)
Inductive pyval :=
| PyNone
| PyInt (z : Z)
| PyStr (s : string)
| PyList (xs : list pyval)
| PyDict (d : gmap string pyval)
| PySet (sub : option (string * pyattr)) (members : list pyval)
| PyArrow (sub : option (string * pyattr)) (iso : string)
| PyResponse (sub : option (string * pyattr)) (r : response)
| PyInstance (cls : string) (json_serializer : pyattr)
with pyattr :=
| AttrAbsent
| AttrData (v : pyval)
| AttrMethod (outcome : pyval + pyval).
(** [AttrData v] is an attribute that is not callable; [AttrMethod (inl v)]
    is a callable that returns [v] when called without arguments and
    [AttrMethod (inr e)] one whose call raises the exception object [e]
    (for instance because it expects arguments). *)

Definition class_of (builtin : pyclass) (sub : option (string * pyattr)) : pyclass :=
  match sub with
  | None => builtin
  | Some (name, _) => Subclass name builtin
  end.

(** [type(v)] *)
Definition type_of (v : pyval) : pyclass :=
  match v with
  | PyNone => NoneType
  | PyInt _ => int
  | PyStr _ => str
  | PyList _ => list_cls
  | PyDict _ => dict_cls
  | PySet sub _ => class_of set_cls sub
  | PyArrow sub _ => class_of Arrow sub
  | PyResponse sub _ => class_of BaseResponse sub
  | PyInstance cls _ => Subclass cls object
  end.

(** [isinstance(v, c)] *)
Definition isinstance (v : pyval) (c : pyclass) : bool := issubclass (type_of v) c.

Definition attr_of_sub (sub : option (string * pyattr)) : pyattr :=
  match sub with
  | None => AttrAbsent
  | Some (_, a) => a
  end.

(** [getattr(v, "json_serializer", None)], before it is tested with
    [callable]. *)
Definition getattr_json_serializer (v : pyval) : pyattr :=
  match v with
  | PySet sub _ | PyArrow sub _ | PyResponse sub _ => attr_of_sub sub
  | PyInstance _ a => a
  | _ => AttrAbsent
  end.

(** [callable(a)] *)
Definition callable (a : pyattr) : bool :=
  match a with
  | AttrMethod _ => true
  | _ => false
  end.

(** [list(v)] for a set object: its members in iteration order. *)
Definition list_of_set (v : pyval) : list pyval :=
  match v with
  | PySet _ members => members
  | _ => []
  end.

(** [v.isoformat()] for an Arrow object. *)
Definition isoformat (v : pyval) : string :=
  match v with
  | PyArrow _ iso => iso
  | _ => ""
  end.

(** Truth value of a string or bytes object, and of an optional one
    ([None] is false, so is the empty string). *)
Definition truthy_str (s : string) : bool := negb (String.eqb s "").

Definition truthy_opt_str (o : option string) : bool :=
  match o with
  | None => false
  | Some s => truthy_str s
  end.

(** [str.lower] on ASCII letters. *)
Definition lower_ascii (c : ascii) : ascii :=
  let n := nat_of_ascii c in
  if (65 <=? n)%nat && (n <=? 90)%nat then ascii_of_nat (n + 32) else c.

Fixpoint lower (s : string) : string :=
  match s with
  | EmptyString => EmptyString
  | String c s' => String (lower_ascii c) (lower s')
  end.

End Py.
Import Py.

(* ================================================================== *)
(** * class api_error(Exception)                                       *)
(* ================================================================== *)

Module ApiError.

(** The class attribute [status_code = 400]. *)
Definition class_status_code : Z := 400.

(** An instance: [message] and [payload] are always assigned by
    [__init__]; [status_code] is an instance attribute only when the
    constructor argument was not [None]. *)
Record api_error := mk_api_error {
  message : string;
  inst_status_code : option Z;
  payload : option (gmap string pyval)
}.

(** [api_error(message, status_code=None, payload=None)] *)
Definition init (message : string) (status_code : option Z)
    (payload : option (gmap string pyval)) : api_error :=
  {| message := message;
     inst_status_code :=
       match status_code with
       | Some c => Some c
       | None => None
       end;
     payload := payload |}.

(** [self.status_code]: the instance attribute if there is one, the class
    attribute otherwise. *)
Definition status_code (self : api_error) : Z :=
  match inst_status_code self with
  | Some c => c
  | None => class_status_code
  end.

(** [self.payload or ()] followed by [dict(...)]: an absent or empty
    payload gives the empty dict. *)
Definition payload_or_empty (p : option (gmap string pyval)) : gmap string pyval :=
  match p with
  | Some d => if bool_decide (d = ∅) then ∅ else d
  | None => ∅
  end.

Definition to_dict (self : api_error) : gmap string pyval :=
  let rv := payload_or_empty (payload self) in
  <["error_message" := PyStr (message self)]> rv.

End ApiError.

(** Exceptions the module raises or lets through. *)
Inductive pyexn :=
| ApiErrorExn (e : ApiError.api_error)
| TypeError (msg : string)
| KeyError (key : string)
| Raised (exc : pyval).

Inductive result (A : Type) :=
| Return (a : A)
| Raise (e : pyexn).
Arguments Return {A} a.
Arguments Raise {A} e.

(* ================================================================== *)
(** * class API(View)                                                  *)
(* ================================================================== *)

Module Restle.

(** The attributes of an [API] object that the module or a handler assigns
    through [self]: [method], [response_headers] and [response_status]. *)
Record API := mkAPI {
  method : option string;
  response_headers : gmap string string;
  response_status : option Z
}.

(** The values the class body gives them. *)
Definition API_class_attrs : API :=
  {| method := None; response_headers := ∅; response_status := None |}.

(** The two attributes the class body sets and no code of the module
    assigns; they are constants of the class here.  ([decorators] is read
    by Flask's [as_view] only.) *)
Definition response_mimetype : string := "application/json".

Definition response_status_defaults : gmap string Z :=
  list_to_map
    [("delete", 200); ("get", 200); ("patch", 200); ("post", 200); ("put", 201)].

(** What the module reads from [flask.request]. *)
Record Request := mkRequest {
  req_method : string;
  req_data : string;
  req_mimetype : string
}.

(** ** The monad of methods of [API]

    A method runs on the instance, may assign to its attributes, and
    returns or raises; assignments made before an exception stay. *)
Definition M (A : Type) : Type := API -> API * result A.

Definition ret {A} (a : A) : M A := fun self => (self, Return a).
Definition raise {A} (e : pyexn) : M A := fun self => (self, Raise e).
Definition bind {A B} (m : M A) (k : A -> M B) : M B :=
  fun self =>
    match m self with
    | (self', Return a) => k a self'
    | (self', Raise e) => (self', Raise e)
    end.
Definition get_self : M API := fun self => (self, Return self).
Definition set_method (m : option string) : M unit :=
  fun self =>
    ({| method := m;
        response_headers := response_headers self;
        response_status := response_status self |}, Return tt).
Definition lift {A} (r : result A) : M A := fun self => (self, r).

#[local] Notation "'do' x <- m ; k" := (bind m (fun x => k))
  (at level 10, x name, m at level 100, k at level 200).
#[local] Notation "'do_' m ; k" := (bind m (fun _ => k))
  (at level 10, m at level 100, k at level 200).

(** Positional and keyword arguments of a view call. *)
Definition pyargs : Type := list pyval * gmap string pyval.

Definition handler : Type := pyargs -> M pyval.
Definition hook : Type := pyargs -> M pyargs.

(** [API.dispatch_init]: returns [(args, kwargs)] as given. *)
Definition API_dispatch_init : hook := fun a => ret a.

(** A resource class derived from [API]: the attributes looked up by
    method name, and its [dispatch_init] (the inherited one unless
    overridden).  An attribute that is missing, [None] or otherwise false
    has no entry. *)
Record resource := mkResource {
  attrs : gmap string handler;
  dispatch_init : hook
}.

(** [getattr(self, name, None)] for the attribute named by [self.method]. *)
Definition getattr_method (view : resource) (name : option string) : option handler :=
  match name with
  | Some n => attrs view !! n
  | None => None
  end.

Definition supported_methods : list string :=
  ["get"; "put"; "post"; "delete"; "patch"].

(** [self.method not in ["get", "put", "post", "delete", "patch"]] *)
Definition not_in_supported (name : option string) : bool :=
  match name with
  | Some n => negb (bool_decide (n ∈ supported_methods))
  | None => true
  end.

Definition unsupported_media_type : pyexn :=
  ApiErrorExn
    (ApiError.init "Request payload mimetype must be 'application/json'" (Some 415) None).

Definition method_not_supported : pyexn :=
  ApiErrorExn (ApiError.init "HTTP method is not supported" (Some 405) None).

Section Dispatch.

(** [json.dumps(output, indent=4, sort_keys=True)] with the encoder of the
    application. *)
Variable json_dumps : pyval -> result string.

(** [current_app.response_class]: a subclass of [BaseResponse], or
    [BaseResponse] itself when [None]. *)
Variable response_class : option (string * pyattr).

(** [self.response_status or self.response_status_defaults[...]]: the
    subscript is evaluated only when [response_status] is [None] or 0. *)
Definition status_or_default (self : API) (request : Request) : result Z :=
  let by_method :=
    let key := lower (req_method request) in
    match response_status_defaults !! key with
    | Some d => Return d
    | None => Raise (KeyError key)
    end in
  match response_status self with
  | Some s => if s =? 0 then by_method else Return s
  | None => by_method
  end.

Definition build_response (request : Request) (body : option string) : M pyval :=
  let mimetype :=
    if negb (truthy_opt_str body) then None else Some response_mimetype in
  do self <- get_self;
  do status <- lift (status_or_default self request);
  let status :=
    if (status =? 200) && negb (truthy_opt_str body) then 204 else status in
  ret (PyResponse response_class
         {| body := body; status := status; mimetype := mimetype;
            headers := response_headers self |}).

Definition dispatch_request (view : resource) (request : Request)
    (args : pyargs) : M pyval :=
  do_ set_method (Some (lower (req_method request)));
  if truthy_str (req_data request)
     && negb (String.eqb (req_mimetype request) "application/json")
  then raise unsupported_media_type
  else
    do self <- get_self;
    let method := getattr_method view (method self) in
    if not_in_supported (Restle.method self) || negb (bool_decide (is_Some method))
    then raise method_not_supported
    else
      match method with
      | None => raise method_not_supported
      | Some method =>
          do args <- dispatch_init view args;
          do output <- method args;
          if bool_decide (type_of output = BaseResponse) then ret output
          else
            do output <-
              (match output with
               | PyNone => ret None
               | _ => do s <- lift (json_dumps output); ret (Some s)
               end);
            build_response request output
      end.

End Dispatch.

(* ------------------------------------------------------------------ *)
(** ** register_api                                                    *)
(* ------------------------------------------------------------------ *)

(** One call of [blueprint.add_url_rule]: the rule string, the [defaults]
    keyword (absent when not passed), the view function and [methods]. *)
Record url_rule (F : Type) := mkRule {
  rule : string;
  defaults : option (gmap string pyval);
  view_func : F;
  methods : list string
}.
Arguments mkRule {F} _ _ _ _.
Arguments rule {F} _.
Arguments defaults {F} _.
Arguments view_func {F} _.
Arguments methods {F} _.

(** A blueprint, as far as [register_api] is concerned: the rules added to
    it, oldest first. *)
Definition add_url_rule {F} (blueprint : list (url_rule F)) (rule : string)
    (defaults : option (gmap string pyval)) (view_func : F)
    (methods : list string) : list (url_rule F) :=
  blueprint ++ [mkRule rule defaults view_func methods].

(** ['%s<%s:%s>' % (url, pk_type, pk)] *)
Definition item_rule (url pk_type pk : string) : string :=
  (url ++ "<" ++ pk_type ++ ":" ++ pk ++ ">")%string.

Section Register.

Context {V F : Type}.

(** [view.as_view(endpoint)] *)
Variable as_view : V -> string -> F.

(** [pk] defaults to ['id'] and [pk_type] to ['int']. *)
Definition register_api (blueprint : list (url_rule F)) (view : V)
    (endpoint url pk pk_type : string) : list (url_rule F) :=
  let view_func := as_view view endpoint in
  let blueprint :=
    add_url_rule blueprint url (Some {[ pk := PyNone ]}) view_func ["GET"] in
  let blueprint := add_url_rule blueprint url None view_func ["POST"] in
  add_url_rule blueprint (item_rule url pk_type pk) None view_func
    ["GET"; "PUT"; "DELETE"].

End Register.

(** The routes a list of rules stands for: one per rule and method. *)
Definition routes {F} (blueprint : list (url_rule F)) : list (string * string) :=
  flat_map (fun r => map (fun m => (m, rule r)) (methods r)) blueprint.

(* ------------------------------------------------------------------ *)
(** ** The JSON encoder and decoder                                    *)
(* ------------------------------------------------------------------ *)

(** Calling an attribute without arguments. *)
Definition call0 (a : pyattr) : result pyval :=
  match a with
  | AttrMethod (inl v) => Return v
  | AttrMethod (inr e) => Raise (Raised e)
  | _ => Raise (TypeError "object is not callable")
  end.

Section Encoder.

(** [json.JSONEncoder.default(self, obj)], the encoder the class extends. *)
Variable JSONEncoder_default : pyval -> result pyval.

(** [CustomJSONEncoder.default] *)
Definition CustomJSONEncoder_default (obj : pyval) : result pyval :=
  let json_serializer := getattr_json_serializer obj in
  if callable json_serializer then call0 (getattr_json_serializer obj)
  else if bool_decide (type_of obj = set_cls) then Return (PyList (list_of_set obj))
  else if bool_decide (type_of obj = Arrow) then Return (PyStr (isoformat obj))
  else JSONEncoder_default obj.

(** [JsonEncoder.default] *)
Definition JsonEncoder_default (obj : pyval) : result pyval :=
  let json_serializer := getattr_json_serializer obj in
  if callable json_serializer then call0 json_serializer
  else JSONEncoder_default obj.

End Encoder.

(** [CustomJSONDecoder.object_hook] *)
Definition object_hook (obj : pyval) : pyval := obj.

Section ErrorResponse.

Variable json_dumps : pyval -> result string.
Variable response_class : option (string * pyattr).

(** [api_error.response]: no [headers] argument is passed. *)
Definition api_error_response (self : ApiError.api_error) : result pyval :=
  match json_dumps (PyDict (ApiError.to_dict self)) with
  | Return s =>
      Return (PyResponse response_class
                {| body := Some s; status := ApiError.status_code self;
                   mimetype := Some "application/json"; headers := ∅ |})
  | Raise e => Raise e
  end.

(** The error handler [restle] registers for [api_error]. *)
Definition handle_invalid_usage (error : ApiError.api_error) : result pyval :=
  api_error_response error.

End ErrorResponse.

End Restle.

(* ================================================================== *)
(** * URL converters                                                   *)
(* ================================================================== *)

(** A converter only sets [self.regex]; Werkzeug places that pattern in a
    group of the rule's pattern, which is anchored at both ends, so a path
    segment is accepted when the pattern matches all of it.  The patterns
    are kept as the strings of the source and read by [Regex.parse].
    Characters are the 256 values of [ascii], and [\d] stands for [[0-9]],
    its meaning on byte strings and on ASCII text. *)
Module Regex.

Inductive regex :=
| Void
| Eps
| Chars (negated : bool) (ranges : list (ascii * ascii))
| Any
| Cat (r1 r2 : regex)
| Alt (r1 r2 : regex)
| Star (r : regex).

(** *** Reading a pattern *)

Definition is_digit (c : ascii) : bool :=
  let n := nat_of_ascii c in (48 <=? n)%nat && (n <=? 57)%nat.

Definition is_alpha (c : ascii) : bool :=
  let n := nat_of_ascii c in
  ((65 <=? n)%nat && (n <=? 90)%nat) || ((97 <=? n)%nat && (n <=? 122)%nat).

Definition digit_value (c : ascii) : nat := nat_of_ascii c - 48.

Definition lit (c : ascii) : regex := Chars false [(c, c)].

Definition chain (r1 r2 : regex) : regex :=
  match r2 with
  | Eps => r1
  | _ => Cat r1 r2
  end.

Fixpoint power (r : regex) (n : nat) : regex :=
  match n with
  | O => Eps
  | S n' => chain r (power r n')
  end.

(** The items of a bracket expression up to the closing bracket: single
    characters and ranges [a-b].  Escapes inside brackets are not read. *)
Fixpoint parse_class_items (s : string) (acc : list (ascii * ascii))
    : option (list (ascii * ascii) * string) :=
  match s with
  | EmptyString => None
  | String c tl =>
      if Ascii.eqb c "]" then
        match acc with
        | [] => None
        | _ => Some (rev acc, tl)
        end
      else if Ascii.eqb c "\" then None
      else
        match tl with
        | String dash (String hi rest) =>
            if Ascii.eqb dash "-" && negb (Ascii.eqb hi "]")
            then parse_class_items rest ((c, hi) :: acc)
            else parse_class_items tl ((c, c) :: acc)
        | _ => parse_class_items tl ((c, c) :: acc)
        end
  end.

Definition parse_class (s : string) : option (regex * string) :=
  let '(negated, s) :=
    match s with
    | String c tl => if Ascii.eqb c "^" then (true, tl) else (false, s)
    | EmptyString => (false, s)
    end in
  match parse_class_items s [] with
  | Some (ranges, rest) => Some (Chars negated ranges, rest)
  | None => None
  end.

(** Decimal digits of a repetition count. *)
Fixpoint parse_count (s : string) (acc : option nat) : option nat * string :=
  match s with
  | String c tl =>
      if is_digit c
      then parse_count tl (Some (10 * default 0%nat acc + digit_value c)%nat)
      else (acc, s)
  | EmptyString => (acc, s)
  end.

Definition is_quantifier (c : ascii) : bool :=
  Ascii.eqb c "+" || Ascii.eqb c "*" || Ascii.eqb c "?" || Ascii.eqb c "{".

(** At most one quantifier after an atom: [+], [*], [?] or [{n}].  A second
    one (a lazy or possessive quantifier) is not read. *)
Definition parse_quantifier (atom : regex) (s : string) : option (regex * string) :=
  let single (r : regex) (rest : string) :=
    match rest with
    | String c _ => if is_quantifier c then None else Some (r, rest)
    | EmptyString => Some (r, rest)
    end in
  match s with
  | String c tl =>
      if Ascii.eqb c "+" then single (Cat atom (Star atom)) tl
      else if Ascii.eqb c "*" then single (Star atom) tl
      else if Ascii.eqb c "?" then single (Alt atom Eps) tl
      else if Ascii.eqb c "{" then
        match parse_count tl None with
        | (Some n, String close rest) =>
            if Ascii.eqb close "}" then single (power atom n) rest else None
        | _ => None
        end
      else Some (atom, s)
  | EmptyString => Some (atom, s)
  end.

(** One atom: a group, a bracket expression, an escape, a dot or a literal
    character.  [group] reads the inside of a group. *)
Definition parse_atom (group : string -> option (regex * string)) (s : string)
    : option (regex * string) :=
  match s with
  | EmptyString => None
  | String c tl =>
      if Ascii.eqb c "(" then
        match tl with
        | String q _ =>
            if Ascii.eqb q "?" then None
            else
              match group tl with
              | Some (r, String close rest) =>
                  if Ascii.eqb close ")" then Some (r, rest) else None
              | _ => None
              end
        | EmptyString => None
        end
      else if Ascii.eqb c "[" then parse_class tl
      else if Ascii.eqb c "\" then
        match tl with
        | String e rest =>
            if Ascii.eqb e "d" then Some (Chars false [("0", "9")%char], rest)
            else if is_alpha e || is_digit e then None
            else Some (lit e, rest)
        | EmptyString => None
        end
      else if Ascii.eqb c "." then Some (Any, tl)
      else if is_quantifier c || Ascii.eqb c "^" || Ascii.eqb c "$"
              || Ascii.eqb c "}" || Ascii.eqb c "]" then None
      else Some (lit c, tl)
  end.

(** A sequence of quantified atoms, up to [|], [)] or the end. *)
Fixpoint parse_seq (group : string -> option (regex * string)) (fuel : nat)
    (s : string) : option (regex * string) :=
  match fuel with
  | O => None
  | S fuel =>
      match s with
      | EmptyString => Some (Eps, s)
      | String c _ =>
          if Ascii.eqb c "|" || Ascii.eqb c ")" then Some (Eps, s)
          else
            match parse_atom group s with
            | None => None
            | Some (a, rest) =>
                match parse_quantifier a rest with
                | None => None
                | Some (q, rest) =>
                    match parse_seq group fuel rest with
                    | Some (r, rest) => Some (chain q r, rest)
                    | None => None
                    end
                end
            end
      end
  end.

(** Alternatives separated by [|]. *)
Fixpoint parse_alt (fuel : nat) (s : string) : option (regex * string) :=
  match fuel with
  | O => None
  | S fuel =>
      match parse_seq (parse_alt fuel) fuel s with
      | Some (r, String c rest) =>
          if Ascii.eqb c "|" then
            match parse_alt fuel rest with
            | Some (r', rest) => Some (Alt r r', rest)
            | None => None
            end
          else Some (r, String c rest)
      | other => other
      end
  end.

Definition parse (pattern : string) : option regex :=
  match parse_alt (2 + String.length pattern) pattern with
  | Some (r, EmptyString) => Some r
  | _ => None
  end.

(** *** Matching, by derivatives *)

Definition in_ranges (c : ascii) (ranges : list (ascii * ascii)) : bool :=
  existsb (fun '(lo, hi) =>
             (nat_of_ascii lo <=? nat_of_ascii c)%nat
             && (nat_of_ascii c <=? nat_of_ascii hi)%nat) ranges.

Definition chars_accept (negated : bool) (ranges : list (ascii * ascii))
    (c : ascii) : bool :=
  xorb negated (in_ranges c ranges).

Fixpoint nullable (r : regex) : bool :=
  match r with
  | Void => false
  | Eps => true
  | Chars _ _ => false
  | Any => false
  | Cat r1 r2 => nullable r1 && nullable r2
  | Alt r1 r2 => nullable r1 || nullable r2
  | Star _ => true
  end.

Definition cat (r1 r2 : regex) : regex :=
  match r1, r2 with
  | Void, _ => Void
  | _, Void => Void
  | Eps, _ => r2
  | _, Eps => r1
  | _, _ => Cat r1 r2
  end.

Definition alt (r1 r2 : regex) : regex :=
  match r1, r2 with
  | Void, _ => r2
  | _, Void => r1
  | _, _ => Alt r1 r2
  end.

(** The dot does not match a newline. *)
Definition newline : ascii := ascii_of_nat 10.

Fixpoint deriv (c : ascii) (r : regex) : regex :=
  match r with
  | Void => Void
  | Eps => Void
  | Chars negated ranges => if chars_accept negated ranges c then Eps else Void
  | Any => if Ascii.eqb c newline then Void else Eps
  | Cat r1 r2 =>
      if nullable r1
      then alt (cat (deriv c r1) r2) (deriv c r2)
      else cat (deriv c r1) r2
  | Alt r1 r2 => alt (deriv c r1) (deriv c r2)
  | Star r1 => cat (deriv c r1) (Star r1)
  end.

Fixpoint matches (r : regex) (s : string) : bool :=
  match s with
  | EmptyString => nullable r
  | String c s' => matches (deriv c r) s'
  end.

(** Whether [pattern] matches the whole of [s]; [None] when the pattern is
    outside the syntax [parse] reads. *)
Definition fullmatch (pattern s : string) : option bool :=
  match parse pattern with
  | Some r => Some (matches r s)
  | None => None
  end.

(** The language of a pattern, for stating what [matches] decides. *)
Inductive lang : regex -> string -> Prop :=
| lang_eps : lang Eps ""
| lang_chars negated ranges c :
    chars_accept negated ranges c = true ->
    lang (Chars negated ranges) (String c "")
| lang_any c : Ascii.eqb c newline = false -> lang Any (String c "")
| lang_cat r1 r2 s1 s2 :
    lang r1 s1 -> lang r2 s2 -> lang (Cat r1 r2) (s1 ++ s2)%string
| lang_alt_l r1 r2 s : lang r1 s -> lang (Alt r1 r2) s
| lang_alt_r r1 r2 s : lang r2 s -> lang (Alt r1 r2) s
| lang_star_nil r : lang (Star r) ""
| lang_star_cons r s1 s2 :
    lang r s1 -> lang (Star r) s2 -> lang (Star r) (s1 ++ s2)%string.

End Regex.

Module Converters.

(** [RegexConverter.__init__]: the pattern is the first item; without one
    the subscript raises. *)
Definition RegexConverter_regex (items : list string) : option string :=
  head items.

Definition EmailConverter_regex : string := "[^@ ]+@[^@ ]+\.[^@ ]+".

Definition IPv4Converter_regex : string :=
  "(([0-9]|[1-9][0-9]|1[0-9]{2}|2[0-4][0-9]|25[0-5])\.){3}([0-9]|[1-9][0-9]|1[0-9]{2}|2[0-4][0-9]|25[0-5])".

Definition CidrConverter_regex : string :=
  "(([0-9]|[1-9][0-9]|1[0-9]{2}|2[0-4][0-9]|25[0-5])\.){3}([0-9]|[1-9][0-9]|1[0-9]{2}|2[0-4][0-9]|25[0-5])(\/([1-2]\d|3[0-2]|\d))".

(** The converter classes, and [extend_converters] on the converter table
    of the URL map. *)
Inductive converter :=
| RegexConverter
| EmailConverter
| IPv4Converter
| CidrConverter.

Definition extend_converters (converters : gmap string converter)
    : gmap string converter :=
  let converters := <["regex" := RegexConverter]> converters in
  let converters := <["email" := EmailConverter]> converters in
  let converters := <["ip" := IPv4Converter]> converters in
  <["cidr" := CidrConverter]> converters.

End Converters.

(* ================================================================== *)
(** * The vocabulary of the specification                              *)
(* ================================================================== *)

(** Notions the properties below are stated with, and a few objects to run
    the definitions on. *)

Module EncoderSpec.
Import Restle.

(** The words of the specification: a set-like collection is an instance of
    [set], of the class itself or of a subclass. *)
Definition set_like (v : pyval) : bool := isinstance v set_cls.

(** The base encoder of the standard library: it serializes nothing. *)
Definition not_serializable (v : pyval) : result pyval :=
  Raise (TypeError "is not JSON serializable").

(** An instance of [class OrderedSet(set)] holding 1 and 2. *)
Definition ordered_set : pyval :=
  PySet (Some ("OrderedSet", AttrAbsent)) [PyInt 1; PyInt 2].

End EncoderSpec.

Module DispatchSpec.
Import Restle.

(** The instance after [self.method = request.method.lower()]. *)
Definition with_method (self : API) (request : Request) : API :=
  {| method := Some (lower (req_method request));
     response_headers := response_headers self;
     response_status := response_status self |}.

(** The request carries a body and does not declare JSON. *)
Definition non_json_body (request : Request) : Prop :=
  req_data request <> "" /\ req_mimetype request <> "application/json".

(** The per-method defaults, in the words of the specification. *)
Definition method_default (m : string) : option Z :=
  if String.eqb m "get" then Some 200
  else if String.eqb m "post" then Some 200
  else if String.eqb m "put" then Some 201
  else if String.eqb m "patch" then Some 200
  else if String.eqb m "delete" then Some 200
  else None.

(** The status override of an instance, when one is set.  The code tests
    [self.response_status] for truth, so [None] and 0 both count as not
    set. *)
Definition status_override (self : API) : option Z :=
  match response_status self with
  | Some s => if s =? 0 then None else Some s
  | None => None
  end.

(** The rule of the specification: the override if set, else the default of
    the method; 200 with an empty body becomes 204. *)
Definition chosen_status (override : option Z) (by_method : Z)
    (empty_body : bool) : Z :=
  let computed := default by_method override in
  if (computed =? 200) && empty_body then 204 else computed.

Definition empty_body (body : option string) : bool :=
  match body with
  | None => true
  | Some s => String.eqb s ""
  end.

(** A request that passes both checks, with the hook returning and the
    handler returning [output] and leaving the instance as [self']. *)
Definition handler_returns (view : resource) (self : API) (request : Request)
    (args : pyargs) (self' : API) (output : pyval) : Prop :=
  ~ non_json_body request
  /\ lower (req_method request) ∈ supported_methods
  /\ exists (h : handler) (self1 : API) (args1 : pyargs),
       attrs view !! lower (req_method request) = Some h
       /\ dispatch_init view args (with_method self request) = (self1, Return args1)
       /\ h args1 self1 = (self', Return output).

(** A codec and a resource to run the definitions on. *)
Definition sample_dumps (v : pyval) : result string :=
  match v with
  | PyNone => Return "null"
  | PyInt 0 => Return "0"
  | PyList [] => Return "[]"
  | _ => Raise (TypeError "is not JSON serializable")
  end.

Definition flask_response : option (string * pyattr) := Some ("Response", AttrAbsent).

(** A resource whose [get] returns an empty list, whose [put] and [delete]
    return [None], and whose [post] answers with a response it built with
    [current_app.response_class]. *)
Definition widgets : resource :=
  {| attrs :=
       list_to_map
         [("get", (fun _ => ret (PyList [])) : handler);
          ("put", (fun _ => ret PyNone) : handler);
          ("delete", (fun _ => ret PyNone) : handler);
          ("post", (fun _ =>
                      ret (PyResponse flask_response
                             {| body := Some "created"; status := 201;
                                mimetype := Some "text/plain";
                                headers := ∅ |})) : handler)];
     dispatch_init := API_dispatch_init |}.

Definition no_args : pyargs := ([], ∅).

(** Steps 5 to 8: what becomes of the handler's output. *)
Definition respond (json_dumps : pyval -> result string)
    (response_class : option (string * pyattr)) (request : Request)
    (output : pyval) : M pyval :=
  if bool_decide (type_of output = BaseResponse) then ret output
  else
    match output with
    | PyNone => build_response response_class request None
    | _ =>
        fun self =>
          match json_dumps output with
          | Return s => build_response response_class request (Some s) self
          | Raise e => (self, Raise e)
          end
    end.

(** The body the response is built with: none for [None], the text of
    [json.dumps] for anything else. *)
Definition serialized (json_dumps : pyval -> result string) (output : pyval)
    (body : option string) : Prop :=
  match output with
  | PyNone => body = None
  | _ => exists s, json_dumps output = Return s /\ body = Some s
  end.

Definition get_widgets : Request :=
  {| req_method := "GET"; req_data := ""; req_mimetype := "" |}.
Definition put_widget : Request :=
  {| req_method := "PUT"; req_data := "[]"; req_mimetype := "application/json" |}.
Definition post_widget : Request :=
  {| req_method := "POST"; req_data := "[]"; req_mimetype := "application/json" |}.
Definition post_form : Request :=
  {| req_method := "POST"; req_data := "a=1"; req_mimetype := "text/plain" |}.

End DispatchSpec.

Module ConverterSpec.
Import Regex Converters.

Local Open Scope string_scope.

(** Decimal numerals, as printed by the standard library. *)
Definition decimal (n : nat) : string :=
  DecimalString.NilEmpty.string_of_uint (Nat.to_uint n).

(** [a.b.c.d] *)
Definition dotted (a b c d : nat) : string :=
  decimal a +:+ "." +:+ decimal b +:+ "." +:+ decimal c +:+ "." +:+ decimal d.

(** The two groups the address patterns are built from. *)
Definition octet : regex :=
  Eval vm_compute in
    default Void (parse "([0-9]|[1-9][0-9]|1[0-9]{2}|2[0-4][0-9]|25[0-5])").

Definition prefix_length : regex :=
  Eval vm_compute in default Void (parse "([1-2]\d|3[0-2]|\d)").

(** [[^@ ]] *)
Definition email_chars : regex := Chars true [("@", "@"); (" ", " ")]%char.

Definition email_char (c : ascii) : bool :=
  negb (Ascii.eqb c "@") && negb (Ascii.eqb c " ").

Fixpoint all_chars (p : ascii -> bool) (s : string) : bool :=
  match s with
  | EmptyString => true
  | String c s' => p c && all_chars p s'
  end.

(** A non-empty run of characters other than [@] and the space. *)
Definition email_part (s : string) : Prop :=
  s <> "" /\ all_chars email_char s = true.

Definition all_ascii : list ascii := map ascii_of_nat (List.seq 0 256)%nat.

(** The words of a pattern without a star, listed. *)
Fixpoint words (r : regex) : option (list string) :=
  match r with
  | Void => Some []
  | Eps => Some [""]
  | Chars negated ranges =>
      Some (map (fun c => String c "")
              (List.filter (chars_accept negated ranges) all_ascii))
  | Any =>
      Some (map (fun c => String c "")
              (List.filter (fun c => negb (Ascii.eqb c newline)) all_ascii))
  | Cat r1 r2 =>
      match words r1, words r2 with
      | Some l1, Some l2 =>
          Some (flat_map (fun s1 => map (String.append s1) l2) l1)
      | _, _ => None
      end
  | Alt r1 r2 =>
      match words r1, words r2 with
      | Some l1, Some l2 => Some (l1 ++ l2)%list
      | _, _ => None
      end
  | Star _ => None
  end.

Definition dot : regex := lit ".".

Definition address : regex :=
  Cat (Cat octet dot) (Cat (Cat octet dot) (Cat octet dot)).

End ConverterSpec.

(* ================================================================== *)
(** * restle(app)                                                      *)
(* ================================================================== *)

Module App.

(** The classes an application can have as its JSON encoder and decoder,
    and the functions it can have as error handlers. *)
Inductive encoder_class :=
| FlaskJSONEncoder
| CustomJSONEncoder
| JsonEncoder.

Inductive decoder_class :=
| FlaskJSONDecoder
| CustomJSONDecoder.

Inductive error_function :=
| handle_invalid_usage
| other_function (name : string).

(** What [restle] touches of a Flask application: the converter table of
    its URL map, its encoder and decoder classes, and its error handlers,
    by the name of the exception class they are registered for. *)
Record app := mkApp {
  converters : gmap string Converters.converter;
  json_encoder : encoder_class;
  json_decoder : decoder_class;
  error_handlers : gmap string error_function
}.

(** [extend_converters(app)], which returns [app]. *)
Definition extend_converters (a : app) : app :=
  {| converters := Converters.extend_converters (converters a);
     json_encoder := json_encoder a;
     json_decoder := json_decoder a;
     error_handlers := error_handlers a |}.

(** [restle(app)]: the application after the call. *)
Definition restle (a : app) : app :=
  let a := extend_converters a in
  {| converters := converters a;
     json_encoder := CustomJSONEncoder;
     json_decoder := CustomJSONDecoder;
     error_handlers := <["api_error" := handle_invalid_usage]> (error_handlers a) |}.

End App.

Module MoreSpec.
Import Restle DispatchSpec.

Local Open Scope string_scope.


(** A resource with a hook that insists on a positional argument, a [get]
    that fails with 404, a [post] that returns an object [json.dumps]
    rejects and a [put] that answers with a plain [BaseResponse]. *)
Definition not_found : pyexn :=
  ApiErrorExn (ApiError.init "Widget not found" (Some 404) None).

Definition id_required : pyexn :=
  ApiErrorExn (ApiError.init "An id is required" None None).

Definition accepted : response :=
  {| body := Some "accepted"; status := 202; mimetype := Some "text/plain";
     headers := ∅ |}.

Definition guarded : resource :=
  {| attrs :=
       list_to_map
         [("get", (fun _ => raise not_found) : handler);
          ("post", (fun _ => ret (PyInstance "Widget" AttrAbsent)) : handler);
          ("put", (fun _ => ret (PyResponse None accepted)) : handler)];
     dispatch_init :=
       fun a =>
         match a.1 with
         | [] => raise id_required
         | _ => ret a
         end |}.

Definition one_arg : pyargs := ([PyInt 1], ∅).

Definition head_request : Request :=
  {| req_method := "HEAD"; req_data := ""; req_mimetype := "" |}.


(** A codec that writes every dict as an empty object and rejects
    everything else. *)
Definition error_dumps (v : pyval) : result string :=
  match v with
  | PyDict _ => Return "{}"
  | _ => Raise (TypeError "is not JSON serializable")
  end.

(** The number of occurrences of a character in a string. *)
Fixpoint count_char (c : ascii) (s : string) : nat :=
  match s with
  | EmptyString => 0%nat
  | String c' s' => ((if Ascii.eqb c c' then 1 else 0) + count_char c s')%nat
  end.

Definition digit_or_dot (c : ascii) : bool :=
  Regex.is_digit c || Ascii.eqb c ".".

End MoreSpec.

(* ================================================================== *)
(** * Properties of [api_error]                                        *)
(* ================================================================== *)

Module ApiErrorFacts.
Import ApiError.

Lemma payload_or_empty_default (p : option (gmap string pyval)) :
  payload_or_empty p = default ∅ p.
Proof.
  destruct p as [d|]; simpl; [|reflexivity].
  case_bool_decide; congruence.
Qed.

Lemma to_dict_insert (e : api_error) :
  to_dict e = <["error_message" := PyStr (message e)]> (default ∅ (payload e)).
Proof. unfold to_dict. by rewrite payload_or_empty_default. Qed.

(** [Error("X not found", 404).to_dict()] *)
Example to_dict_not_found :
  to_dict (init "X not found" (Some 404) None)
  = {[ "error_message" := PyStr "X not found" ]}.
Proof. reflexivity. Qed.

(** [Error("bad", 400, {"field": "name"}).to_dict()] *)
Example to_dict_bad_field :
  to_dict (init "bad" (Some 400) (Some {[ "field" := PyStr "name" ]}))
  = <["error_message" := PyStr "bad"]> {[ "field" := PyStr "name" ]}.
Proof. rewrite to_dict_insert. reflexivity. Qed.

(** C6.  For every message [m], status code [c] and optional payload [p],
    [to_dict] of the error built from them is [p] (the empty mapping when
    [p] is absent) with ["error_message"] bound to [m]: that key reads [m]
    whatever [p] held under it, every other key reads as in [p]; and an
    error built with no status code has status code 400. *)
Theorem to_dict_merges_payload (m : string) (c : option Z)
    (p : option (gmap string pyval)) :
  to_dict (init m c p) = <["error_message" := PyStr m]> (default ∅ p)
  /\ to_dict (init m c p) !! "error_message" = Some (PyStr m)
  /\ (forall k : string, k <> "error_message" ->
        to_dict (init m c p) !! k = default ∅ p !! k)
  /\ status_code (init m None p) = 400.
Proof.
  rewrite to_dict_insert. simpl.
  split; [reflexivity|].
  split; [apply lookup_insert_eq|].
  split; [|reflexivity].
  intros k Hk. by rewrite lookup_insert_ne.
Qed.

(** A status code that is given is kept, 0 included. *)
Lemma status_code_given (m : string) (c : Z) (p : option (gmap string pyval)) :
  status_code (init m (Some c) p) = c.
Proof. reflexivity. Qed.

End ApiErrorFacts.

(* ================================================================== *)
(** * Properties of [register_api]                                     *)
(* ================================================================== *)

Module RegisterFacts.
Import Restle.

Section Rules.

Context {V F : Type}.
Variable as_view : V -> string -> F.

Lemma register_api_rules (bp : list (url_rule F)) (view : V)
    (endpoint url pk pk_type : string) :
  register_api as_view bp view endpoint url pk pk_type
  = (bp ++ [ mkRule url (Some {[ pk := PyNone ]}) (as_view view endpoint) ["GET"];
             mkRule url None (as_view view endpoint) ["POST"];
             mkRule (item_rule url pk_type pk) None (as_view view endpoint)
               ["GET"; "PUT"; "DELETE"] ])%list.
Proof.
  unfold register_api, add_url_rule. by rewrite <- !app_assoc.
Qed.

Lemma routes_app (bp1 bp2 : list (url_rule F)) :
  routes (bp1 ++ bp2)%list = (routes bp1 ++ routes bp2)%list.
Proof. unfold routes. apply flat_map_app. Qed.

(** C4, as the code has it.  On any blueprint, [register_api] adds three
    rules that stand for five routes: GET and POST at [url], the first with
    [pk] defaulting to [None] and the second with no defaults, and GET, PUT
    and DELETE at [url] directly followed by [<pk_type:pk>], nothing in
    between. *)
Theorem register_api_five_routes (bp : list (url_rule F)) (view : V)
    (endpoint url pk pk_type : string) :
  let bp' := register_api as_view bp view endpoint url pk pk_type in
  let item := (url ++ "<" ++ pk_type ++ ":" ++ pk ++ ">")%string in
  routes bp'
  = (routes bp ++ [("GET", url); ("POST", url);
                   ("GET", item); ("PUT", item); ("DELETE", item)])%list
  /\ (defaults <$> drop (length bp) bp')
     = [Some {[ pk := PyNone ]}; None; None]
  /\ item_rule "/widgets" "int" "id" = "/widgets<int:id>"
  /\ item_rule "/widgets/" "int" "id" = "/widgets/<int:id>".
Proof.
  cbv zeta. rewrite register_api_rules, routes_app.
  split; [reflexivity|].
  split; [|split; reflexivity].
  by rewrite drop_app_length.
Qed.

End Rules.

(** C4, as the specification words it, fails: with the base URL
    ['/widgets'] the item rule has no slash before the key segment, so it is
    not ['/widgets/<int:id>']. *)
Lemma register_api_widgets_item_url :
  routes (register_api (fun (v e : string) => (v, e)) [] "WidgetAPI"
            "widget_api" "/widgets" "id" "int")
  <> [("GET", "/widgets"); ("POST", "/widgets");
      ("GET", "/widgets/<int:id>"); ("PUT", "/widgets/<int:id>");
      ("DELETE", "/widgets/<int:id>")].
Proof. vm_compute. discriminate. Qed.

End RegisterFacts.

(* ================================================================== *)
(** * Properties of the JSON encoder                                   *)
(* ================================================================== *)

Module EncoderFacts.
Import Restle EncoderSpec.

Section Default.

Variable base : pyval -> result pyval.

Lemma default_callable (v : pyval) :
  callable (getattr_json_serializer v) = true ->
  CustomJSONEncoder_default base v = call0 (getattr_json_serializer v).
Proof. unfold CustomJSONEncoder_default. by intros ->. Qed.

Lemma default_not_callable (v : pyval) :
  callable (getattr_json_serializer v) = false ->
  CustomJSONEncoder_default base v
  = if bool_decide (type_of v = set_cls) then Return (PyList (list_of_set v))
    else if bool_decide (type_of v = Arrow) then Return (PyStr (isoformat v))
    else base v.
Proof. unfold CustomJSONEncoder_default. by intros ->. Qed.

(** C7, as the code has it.  For a value [v] the base encoder rejects with
    [e]: a callable [json_serializer] attribute is called and its outcome
    is the encoding (its result [r] when it returns one); otherwise a value
    whose class is exactly [set] is encoded as the list of its members;
    otherwise a value whose class is exactly [Arrow] is encoded as its
    [isoformat()] string; otherwise the encoding fails with [e]. *)
Theorem default_precedence (v : pyval) (e : pyexn) :
  base v = Raise e ->
  let a := getattr_json_serializer v in
  (callable a = true -> CustomJSONEncoder_default base v = call0 a)
  /\ (forall r, a = AttrMethod (inl r) ->
        CustomJSONEncoder_default base v = Return r)
  /\ (callable a = false -> type_of v = set_cls ->
        CustomJSONEncoder_default base v = Return (PyList (list_of_set v)))
  /\ (callable a = false -> type_of v <> set_cls -> type_of v = Arrow ->
        CustomJSONEncoder_default base v = Return (PyStr (isoformat v)))
  /\ (callable a = false -> type_of v <> set_cls -> type_of v <> Arrow ->
        CustomJSONEncoder_default base v = Raise e).
Proof.
  intros Hbase a. subst a. repeat split.
  - apply default_callable.
  - intros r Hr. rewrite default_callable; by rewrite Hr.
  - intros Hc Hs. rewrite default_not_callable by done.
    by rewrite bool_decide_eq_true_2.
  - intros Hc Hs Ha. rewrite default_not_callable by done.
    rewrite bool_decide_eq_false_2 by done. by rewrite bool_decide_eq_true_2.
  - intros Hc Hs Ha. rewrite default_not_callable by done.
    by rewrite !bool_decide_eq_false_2.
Qed.

Lemma proper_subclass_of_set (v : pyval) :
  type_of v <> set_cls -> isinstance v set_cls = true ->
  exists name a members, v = PySet (Some (name, a)) members.
Proof.
  unfold isinstance. intros Hne Hsub.
  destruct v as [| | | | |sub ms|sub iso|sub r|cls a]; simpl in *;
    try discriminate;
    try (destruct sub as [[n a]|]; simpl in *; try discriminate; try done).
  by exists n, a, ms.
Qed.

(** C10.  A value whose class is a proper subclass of [set], with no
    callable [json_serializer], is not turned into a list: when the base
    encoder rejects it with [e], so does [default]. *)
Theorem default_set_subclass_rejected (v : pyval) (e : pyexn) :
  type_of v <> set_cls ->
  isinstance v set_cls = true ->
  callable (getattr_json_serializer v) = false ->
  base v = Raise e ->
  CustomJSONEncoder_default base v = Raise e
  /\ CustomJSONEncoder_default base v <> Return (PyList (list_of_set v)).
Proof.
  intros Hne Hsub Hc Hbase.
  destruct (proper_subclass_of_set v Hne Hsub) as (n & a & ms & ->).
  rewrite default_not_callable by done.
  simpl. rewrite Hbase. split; [reflexivity | discriminate].
Qed.

End Default.

(** C7, as the specification words it, fails: an instance of a subclass of
    [set] is a set-like collection without a [json_serializer], and it is
    not encoded as the list of its members. *)
Lemma default_set_like_not_listed :
  callable (getattr_json_serializer ordered_set) = false
  /\ set_like ordered_set = true
  /\ not_serializable ordered_set = Raise (TypeError "is not JSON serializable")
  /\ CustomJSONEncoder_default not_serializable ordered_set
     <> Return (PyList [PyInt 1; PyInt 2]).
Proof. repeat split. vm_compute. discriminate. Qed.

Lemma default_precedence_witness :
  let v := PySet None [PyInt 3] in
  not_serializable v = Raise (TypeError "is not JSON serializable")
  /\ CustomJSONEncoder_default not_serializable v = Return (PyList [PyInt 3]).
Proof.
  split; [reflexivity|].
  apply (default_precedence not_serializable (PySet None [PyInt 3])
           (TypeError "is not JSON serializable") eq_refl); reflexivity.
Defined.

Lemma default_set_subclass_rejected_witness :
  CustomJSONEncoder_default not_serializable ordered_set
  = Raise (TypeError "is not JSON serializable").
Proof.
  apply (default_set_subclass_rejected not_serializable ordered_set
           (TypeError "is not JSON serializable")).
  - vm_compute. discriminate.
  - reflexivity.
  - reflexivity.
  - reflexivity.
Defined.

End EncoderFacts.

(* ================================================================== *)
(** * Properties of [API.dispatch_request] and [API.build_response]    *)
(* ================================================================== *)

Module DispatchFacts.
Import Restle DispatchSpec.

Section Facts.

Variable json_dumps : pyval -> result string.
Variable response_class : option (string * pyattr).

Local Abbreviation dispatch_request := (dispatch_request json_dumps response_class).
Local Abbreviation build_response := (build_response response_class).
Local Abbreviation respond := (respond json_dumps response_class).

Lemma method_default_lookup (m : string) :
  response_status_defaults !! m = method_default m.
Proof.
  unfold method_default, response_status_defaults.
  destruct (String.eqb_spec m "get") as [->|?]; [reflexivity|].
  destruct (String.eqb_spec m "post") as [->|?]; [reflexivity|].
  destruct (String.eqb_spec m "put") as [->|?]; [reflexivity|].
  destruct (String.eqb_spec m "patch") as [->|?]; [reflexivity|].
  destruct (String.eqb_spec m "delete") as [->|?]; [reflexivity|].
  simpl. by rewrite !lookup_insert_ne, lookup_empty by done.
Qed.

Lemma supported_has_default (m : string) :
  m ∈ supported_methods -> is_Some (method_default m).
Proof.
  unfold supported_methods. rewrite !elem_of_cons, elem_of_nil.
  intros [->|[->|[->|[->|[->|[]]]]]]; by eexists.
Qed.

Lemma empty_body_truthy (body : option string) :
  negb (truthy_opt_str body) = empty_body body.
Proof.
  destruct body as [s|]; [|reflexivity].
  unfold truthy_opt_str, truthy_str, empty_body. apply negb_involutive.
Qed.

Lemma status_or_default_rule (self : API) (request : Request) (d : Z) :
  method_default (lower (req_method request)) = Some d ->
  status_or_default self request = Return (default d (status_override self)).
Proof.
  intros Hd. unfold status_or_default, status_override.
  rewrite method_default_lookup, Hd.
  destruct (response_status self) as [s|]; [|reflexivity].
  by destruct (s =? 0).
Qed.

Lemma build_response_rule (self : API) (request : Request)
    (body : option string) (d : Z) :
  method_default (lower (req_method request)) = Some d ->
  build_response request body self
  = (self,
     Return (PyResponse response_class
               {| body := body;
                  status := chosen_status (status_override self) d (empty_body body);
                  mimetype := if empty_body body then None else Some "application/json";
                  headers := response_headers self |})).
Proof.
  intros Hd. unfold Restle.build_response, bind, get_self, lift, ret.
  rewrite (status_or_default_rule self request d Hd).
  by rewrite empty_body_truthy.
Qed.

Lemma non_json_body_test (request : Request) :
  truthy_str (req_data request)
  && negb (String.eqb (req_mimetype request) "application/json") = true
  <-> non_json_body request.
Proof.
  unfold non_json_body, truthy_str.
  rewrite andb_true_iff, !negb_true_iff, !String.eqb_neq. tauto.
Qed.

Lemma dispatch_415 (view : resource) (self : API) (request : Request)
    (args : pyargs) :
  non_json_body request ->
  dispatch_request view request args self
  = (with_method self request, Raise unsupported_media_type).
Proof.
  intros H%non_json_body_test.
  unfold Restle.dispatch_request, bind, set_method. simpl.
  by rewrite H.
Qed.

Lemma dispatch_405 (view : resource) (self : API) (request : Request)
    (args : pyargs) :
  ~ non_json_body request ->
  lower (req_method request) ∉ supported_methods
  \/ attrs view !! lower (req_method request) = None ->
  dispatch_request view request args self
  = (with_method self request, Raise method_not_supported).
Proof.
  intros H Hm. rewrite <- non_json_body_test, not_true_iff_false in H.
  unfold Restle.dispatch_request, bind, set_method, get_self. simpl.
  rewrite H. simpl.
  destruct Hm as [Hm|Hm].
  - by rewrite (bool_decide_eq_false_2 _ Hm).
  - rewrite Hm. by rewrite orb_true_r.
Qed.

Lemma dispatch_handler (view : resource) (self self' : API)
    (request : Request) (args : pyargs) (output : pyval) :
  handler_returns view self request args self' output ->
  dispatch_request view request args self = respond request output self'.
Proof.
  intros (H & Hm & h & self1 & args1 & Hh & Hinit & Hout).
  rewrite <- non_json_body_test, not_true_iff_false in H.
  unfold Restle.dispatch_request, bind, set_method, get_self. simpl.
  rewrite H. simpl.
  rewrite (bool_decide_eq_true_2 _ Hm), Hh. simpl.
  fold (with_method self request). rewrite Hinit, Hout.
  unfold respond. case_bool_decide; [reflexivity|].
  destruct output; try reflexivity;
    unfold lift, ret; simpl; by destruct (json_dumps _).
Qed.

Lemma empty_put_status :
  chosen_status None 201 true = 201 /\ chosen_status None 200 true = 204.
Proof. split; reflexivity. Qed.

(** A handler's output whose class is exactly [BaseResponse] is returned as
    it is, and the instance is as the handler left it. *)
Lemma dispatch_base_response (view : resource) (self self' : API)
    (request : Request) (args : pyargs) (output : pyval) :
  handler_returns view self request args self' output ->
  type_of output = BaseResponse ->
  dispatch_request view request args self = (self', Return output).
Proof.
  intros H Ht. rewrite (dispatch_handler _ _ _ _ _ _ H).
  unfold respond. by rewrite bool_decide_eq_true_2.
Qed.

(** Any other output that is not [None] goes through [json.dumps]. *)
Lemma dispatch_dumps (view : resource) (self self' : API)
    (request : Request) (args : pyargs) (output : pyval) :
  handler_returns view self request args self' output ->
  type_of output <> BaseResponse ->
  output <> PyNone ->
  dispatch_request view request args self
  = match json_dumps output with
    | Return s => build_response request (Some s) self'
    | Raise e => (self', Raise e)
    end.
Proof.
  intros H Ht Hn. rewrite (dispatch_handler _ _ _ _ _ _ H).
  unfold respond. rewrite bool_decide_eq_false_2 by done.
  by destruct output.
Qed.

(** A status override of 0 is false in Python, so it counts as not set. *)
Lemma zero_override_not_set (self : API) :
  response_status self = Some 0 -> status_override self = None.
Proof. unfold status_override. by intros ->. Qed.

(** An output that is not passed through reaches [build_response] with its
    serialization as the body. *)
Lemma dispatch_builds_response (view : resource) (self self' : API)
    (request : Request) (args : pyargs) (output : pyval)
    (body : option string) :
  handler_returns view self request args self' output ->
  type_of output <> BaseResponse ->
  serialized json_dumps output body ->
  dispatch_request view request args self = build_response request body self'.
Proof.
  intros H Ht Hb. rewrite (dispatch_handler _ _ _ _ _ _ H).
  unfold respond. rewrite bool_decide_eq_false_2 by done.
  destruct output; simpl in Hb;
    try (destruct Hb as (txt & -> & ->); reflexivity).
  by subst body.
Qed.

(** C1.  Let [m] be the lower-cased method of the request.  When [m] has a
    default [d] (GET, POST, PATCH and DELETE 200, PUT 201),
    [build_response] returns one response, whose status is the override of
    the instance if one is set and [d] otherwise, with 200 replaced by 204
    when the body is empty.  Every request whose handler returns a value
    that is wrapped gets its response, and so its one status, this way.
    And when the handler returns [None] and leaves no override, the
    response of [dispatch_request] has no body and its status is 201 for
    PUT and 204 for GET, POST, PATCH and DELETE. *)
Theorem response_status_chosen (view : resource) (self self' : API)
    (request : Request) (args : pyargs) (output : pyval)
    (body : option string) :
  let m := lower (req_method request) in
  (forall d, method_default m = Some d ->
     exists r,
       build_response request body self' = (self', Return (PyResponse response_class r))
       /\ status r = chosen_status (status_override self') d (empty_body body))
  /\ (handler_returns view self request args self' output ->
      type_of output <> BaseResponse ->
      serialized json_dumps output body ->
      exists r d,
        dispatch_request view request args self
        = (self', Return (PyResponse response_class r))
        /\ method_default m = Some d
        /\ Py.body r = body
        /\ status r = chosen_status (status_override self') d (empty_body body))
  /\ (handler_returns view self request args self' PyNone ->
      response_status self' = None ->
      exists r,
        dispatch_request view request args self
        = (self', Return (PyResponse response_class r))
        /\ Py.body r = None
        /\ (m = "put" -> status r = 201)
        /\ (m ∈ ["get"; "post"; "patch"; "delete"] -> status r = 204)).
Proof.
  intros m. split; [|split].
  - intros d Hd. eexists. split; [by apply build_response_rule|reflexivity].
  - intros H Ht Hb.
    rewrite (dispatch_builds_response _ _ _ _ _ _ _ H Ht Hb).
    destruct H as (_ & Hm & _).
    destruct (supported_has_default _ Hm) as [d Hd].
    rewrite (build_response_rule _ _ _ d Hd). by eexists _, d.
  - intros H Hs.
    rewrite (dispatch_builds_response _ _ _ _ _ _ None H) by done.
    destruct H as (_ & Hm & _).
    destruct (supported_has_default _ Hm) as [d Hd].
    rewrite (build_response_rule _ _ _ d Hd).
    eexists. split; [reflexivity|]. simpl.
    unfold status_override. rewrite Hs. simpl.
    fold m in Hd. split; [reflexivity|]. split.
    + intros Hput. rewrite Hput in Hd. by inversion Hd.
    + rewrite !elem_of_cons, elem_of_nil.
      intros [E|[E|[E|[E|[]]]]]; rewrite E in Hd; by inversion Hd.
Qed.

(** C2.  When the handler of a supported request returns a value that is
    not [None] and whose class is not [BaseResponse], and [json.dumps]
    turns it into the (non-empty) text [s], the response has body [s] and
    MIME type [application/json]; its status is the override if one is set
    and the default of the method otherwise. *)
Theorem json_wrapped_response (view : resource) (self self' : API)
    (request : Request) (args : pyargs) (output : pyval) (s : string) :
  handler_returns view self request args self' output ->
  output <> PyNone ->
  type_of output <> BaseResponse ->
  json_dumps output = Return s ->
  s <> "" ->
  exists (r : response) (d : Z),
    dispatch_request view request args self
    = (self', Return (PyResponse response_class r))
    /\ method_default (lower (req_method request)) = Some d
    /\ Py.body r = Some s
    /\ mimetype r = Some "application/json"
    /\ headers r = response_headers self'
    /\ status r = default d (status_override self')
    /\ (response_status self' = None -> status r = d).
Proof.
  intros H Hn Ht Hs Hne.
  rewrite (dispatch_dumps _ _ _ _ _ _ H Ht Hn), Hs.
  destruct H as (_ & Hm & _).
  destruct (supported_has_default _ Hm) as [d Hd].
  rewrite (build_response_rule _ _ _ d Hd).
  assert (He : empty_body (Some s) = false) by by apply String.eqb_neq.
  rewrite He. eexists _, d. split; [reflexivity|]. simpl.
  assert (Hst : chosen_status (status_override self') d false
                = default d (status_override self')).
  { unfold chosen_status. by rewrite andb_false_r. }
  rewrite Hst. repeat split; try done.
  intros Hnone. unfold status_override. by rewrite Hnone.
Qed.



End Facts.

Lemma put_returns_none :
  handler_returns widgets API_class_attrs put_widget no_args
    (with_method API_class_attrs put_widget) PyNone.
Proof.
  split; [intros [_ H]; by apply H|].
  split; [set_solver|].
  by eexists (fun _ => ret PyNone), _, _.
Qed.

Lemma get_returns_list :
  handler_returns widgets API_class_attrs get_widgets no_args
    (with_method API_class_attrs get_widgets) (PyList []).
Proof.
  split; [intros [H _]; by apply H|].
  split; [set_solver|].
  by eexists (fun _ => ret (PyList [])), _, _.
Qed.

Lemma response_status_chosen_witness :
  exists r,
    dispatch_request sample_dumps flask_response widgets put_widget no_args
      API_class_attrs
    = (with_method API_class_attrs put_widget, Return (PyResponse flask_response r))
    /\ status r = 201.
Proof.
  destruct (response_status_chosen sample_dumps flask_response widgets
              API_class_attrs (with_method API_class_attrs put_widget)
              put_widget no_args PyNone None) as (_ & _ & H).
  destruct (H put_returns_none eq_refl) as (r & Hr & _ & Hput & _).
  exists r. split; [exact Hr|]. by apply Hput.
Defined.

Lemma json_wrapped_response_witness :
  exists r,
    dispatch_request sample_dumps flask_response widgets get_widgets no_args
      API_class_attrs
    = (with_method API_class_attrs get_widgets, Return (PyResponse flask_response r))
    /\ Py.body r = Some "[]" /\ mimetype r = Some "application/json"
    /\ status r = 200.
Proof.
  destruct (json_wrapped_response sample_dumps flask_response widgets
              API_class_attrs (with_method API_class_attrs get_widgets)
              get_widgets no_args (PyList []) "[]" get_returns_list)
    as (r & d & Hr & Hd & Hb & Hm & _ & _ & Hs); try done.
  exists r. repeat split; try done.
  rewrite Hs by reflexivity. vm_compute in Hd. by inversion Hd.
Defined.





(** C5 fails on the code.  The [post] handler of [widgets] returns a
    response built with the response class of the application, a subclass
    of [BaseResponse]; [dispatch_request] does not return it but hands it
    to [json.dumps], which rejects it. *)
Lemma dispatch_response_subclass_dumped :
  let built :=
    PyResponse flask_response
      {| body := Some "created"; status := 201;
         mimetype := Some "text/plain"; headers := ∅ |} in
  isinstance built BaseResponse = true
  /\ (dispatch_request sample_dumps flask_response widgets post_widget no_args
        API_class_attrs).2
     = Raise (TypeError "is not JSON serializable")
  /\ (dispatch_request sample_dumps flask_response widgets post_widget no_args
        API_class_attrs).2
     <> Return built.
Proof. vm_compute. repeat split. discriminate. Qed.

End DispatchFacts.

(* ================================================================== *)
(** * Properties of the converters                                     *)
(* ================================================================== *)

Module RegexFacts.
Import Regex.

Local Open Scope string_scope.

Lemma append_cons (c : ascii) (s1 s2 : string) :
  String.append (String c s1) s2 = String c (String.append s1 s2).
Proof. reflexivity. Qed.

Lemma append_empty_l (s : string) : String.append "" s = s.
Proof. reflexivity. Qed.

Lemma append_empty_r (s : string) : String.append s "" = s.
Proof.
  induction s as [|c s IH]; [reflexivity|]. by rewrite append_cons, IH.
Qed.

Lemma append_is_empty (s1 s2 : string) :
  String.append s1 s2 = "" -> s1 = "" /\ s2 = "".
Proof.
  destruct s1; [rewrite append_empty_l; tauto|].
  rewrite append_cons. discriminate.
Qed.

Lemma append_is_cons (s1 s2 : string) (c : ascii) (s : string) :
  String.append s1 s2 = String c s ->
  (s1 = "" /\ s2 = String c s)
  \/ exists s1', s1 = String c s1' /\ s = String.append s1' s2.
Proof.
  destruct s1 as [|c1 s1']; [rewrite append_empty_l; by left|].
  rewrite append_cons. intros H.
  right. inversion H; subst. by exists s1'.
Qed.

Lemma lang_void (s : string) : ~ lang Void s.
Proof. intros H. inversion H. Qed.

Lemma lang_eps_empty (s : string) : lang Eps s <-> s = "".
Proof. split; [by inversion 1 | intros ->; constructor]. Qed.

Lemma lang_cat_iff (r1 r2 : regex) (s : string) :
  lang (Cat r1 r2) s
  <-> exists s1 s2, s = String.append s1 s2 /\ lang r1 s1 /\ lang r2 s2.
Proof.
  split.
  - inversion 1; subst. by eexists _, _.
  - intros (s1 & s2 & -> & H1 & H2). by constructor.
Qed.

Lemma lang_alt_iff (r1 r2 : regex) (s : string) :
  lang (Alt r1 r2) s <-> lang r1 s \/ lang r2 s.
Proof.
  split.
  - inversion 1; subst; tauto.
  - intros [H|H]; [by apply lang_alt_l | by apply lang_alt_r].
Qed.

(** The simplifying constructors keep the language. *)
Lemma cat_lang (r1 r2 : regex) (s : string) :
  lang (cat r1 r2) s <-> lang (Cat r1 r2) s.
Proof.
  rewrite lang_cat_iff.
  assert (Hvoid_l : forall r, (exists s1 s2, s = String.append s1 s2
                                /\ lang Void s1 /\ lang r s2) <-> False).
  { intros r. split; [|tauto]. intros (s1 & s2 & _ & H & _). by inversion H. }
  assert (Hvoid_r : forall r, (exists s1 s2, s = String.append s1 s2
                                /\ lang r s1 /\ lang Void s2) <-> False).
  { intros r. split; [|tauto]. intros (s1 & s2 & _ & _ & H). by inversion H. }
  assert (Heps_l : forall r, (exists s1 s2, s = String.append s1 s2
                               /\ lang Eps s1 /\ lang r s2) <-> lang r s).
  { intros r. split.
    - intros (s1 & s2 & -> & ->%lang_eps_empty & H). exact H.
    - intros H. exists "", s. repeat split; [constructor|exact H]. }
  assert (Heps_r : forall r, (exists s1 s2, s = String.append s1 s2
                               /\ lang r s1 /\ lang Eps s2) <-> lang r s).
  { intros r. split.
    - intros (s1 & s2 & -> & H & ->%lang_eps_empty).
      by rewrite append_empty_r.
    - intros H. exists s, "". rewrite append_empty_r.
      repeat split; [exact H|constructor]. }
  destruct r1; simpl;
    try (rewrite Hvoid_l; split; [apply lang_void|tauto]);
    destruct r2; simpl;
    first [ rewrite Hvoid_r; split; [apply lang_void|tauto]
          | by rewrite Heps_l
          | by rewrite Heps_r
          | by rewrite <- lang_cat_iff ].
Qed.

Lemma alt_lang (r1 r2 : regex) (s : string) :
  lang (alt r1 r2) s <-> lang (Alt r1 r2) s.
Proof.
  rewrite lang_alt_iff.
  pose proof (lang_void s) as Hv.
  destruct r1; simpl; try tauto;
    destruct r2; simpl; try tauto; by rewrite lang_alt_iff.
Qed.

Lemma nullable_lang (r : regex) : nullable r = true <-> lang r "".
Proof.
  induction r as [| |neg rs| |r1 IH1 r2 IH2|r1 IH1 r2 IH2|r IH]; simpl.
  - split; [discriminate|inversion 1].
  - split; [constructor|done].
  - split; [discriminate|inversion 1].
  - split; [discriminate|inversion 1].
  - rewrite andb_true_iff, IH1, IH2, lang_cat_iff. split.
    + intros [H1 H2]. by exists "", "".
    + intros (s1 & s2 & [-> ->]%eq_sym%append_is_empty & H1 & H2). tauto.
  - by rewrite orb_true_iff, IH1, IH2, lang_alt_iff.
  - split; [constructor|done].
Qed.

(** A non-empty word of a starred pattern starts with a non-empty word of
    the pattern. *)
Lemma lang_star_cons_inv (r : regex) (c : ascii) (s : string) :
  lang (Star r) (String c s) ->
  exists s1 s2, s = String.append s1 s2
                /\ lang r (String c s1) /\ lang (Star r) s2.
Proof.
  intros H. remember (Star r) as r0 eqn:Hr. remember (String c s) as w eqn:Hw.
  revert r c s Hr Hw.
  induction H as [|neg rs c' Hc|c' Hc|r1 r2 s1 s2 H1 _ H2 _|r1 r2 s' H' _
                  |r1 r2 s' H' _|r'|r' s1 s2 H1 _ H2 IH2];
    intros r c s Hr Hw; try discriminate.
  inversion Hr; subst r'.
  apply append_is_cons in Hw as [[-> ->]|(s1' & -> & ->)].
  - by apply IH2.
  - by exists s1', s2.
Qed.

Lemma deriv_lang (c : ascii) (r : regex) (s : string) :
  lang (deriv c r) s <-> lang r (String c s).
Proof.
  revert s.
  induction r as [| |neg rs| |r1 IH1 r2 IH2|r1 IH1 r2 IH2|r IH]; intros s; simpl.
  - split; inversion 1.
  - split; inversion 1.
  - destruct (chars_accept neg rs c) eqn:Hc.
    + rewrite lang_eps_empty. split; [intros ->; by constructor|by inversion 1].
    + split; [inversion 1|]. inversion 1; subst. congruence.
  - destruct (Ascii.eqb c newline) eqn:Hc.
    + split; [inversion 1|]. inversion 1; subst. congruence.
    + rewrite lang_eps_empty. split; [intros ->; by constructor|by inversion 1].
  - assert (Hcat : lang (Cat r1 r2) (String c s)
              <-> lang (Cat (deriv c r1) r2) s
                  \/ (lang r1 "" /\ lang r2 (String c s))).
    { rewrite !lang_cat_iff. split.
      - intros (s1 & s2 & Hs & H1 & H2). symmetry in Hs.
        apply append_is_cons in Hs as [[-> ->]|(s1' & -> & ->)].
        + by right.
        + left. exists s1', s2. by rewrite IH1.
      - intros [(s1 & s2 & -> & H1 & H2)|[H1 H2]].
        + exists (String c s1), s2. by rewrite <- IH1.
        + by exists "", (String c s). }
    rewrite Hcat. destruct (nullable r1) eqn:Hn.
    + apply nullable_lang in Hn.
      rewrite alt_lang, lang_alt_iff, cat_lang, IH2. tauto.
    + rewrite cat_lang. split; [tauto|].
      intros [H|[H _]]; [exact H|].
      apply nullable_lang in H. congruence.
  - by rewrite alt_lang, !lang_alt_iff, IH1, IH2.
  - rewrite cat_lang, lang_cat_iff. split.
    + intros (s1 & s2 & -> & H1 & H2).
      apply (lang_star_cons r (String c s1) s2); [by apply IH|exact H2].
    + intros (s1 & s2 & -> & H1 & H2)%lang_star_cons_inv.
      exists s1, s2. by rewrite IH.
Qed.

(** [matches] decides the language of the pattern. *)
Lemma matches_lang (r : regex) (s : string) :
  matches r s = true <-> lang r s.
Proof.
  revert r. induction s as [|c s IH]; intros r; simpl.
  - apply nullable_lang.
  - by rewrite IH, deriv_lang.
Qed.

Lemma fullmatch_lang (pattern s : string) (b : bool) :
  fullmatch pattern s = Some b ->
  exists r, parse pattern = Some r /\ (b = true <-> lang r s).
Proof.
  unfold fullmatch. destruct (parse pattern) as [r|]; [|discriminate].
  intros [= <-]. exists r. split; [reflexivity|apply matches_lang].
Qed.

End RegexFacts.

Module ConverterFacts.
Import Regex Converters RegexFacts ConverterSpec.

Local Open Scope string_scope.

Lemma append_assoc (s1 s2 s3 : string) :
  (s1 +:+ s2) +:+ s3 = s1 +:+ (s2 +:+ s3).
Proof.
  induction s1 as [|c s1 IH]; [reflexivity|].
  by rewrite !append_cons, IH.
Qed.

Lemma in_all_ascii (c : ascii) : In c all_ascii.
Proof.
  unfold all_ascii. rewrite <- (ascii_nat_embedding c).
  apply in_map, in_seq. pose proof (nat_ascii_bounded c). lia.
Qed.

#[local] Opaque all_ascii.

Lemma words_lang (r : regex) (l : list string) (s : string) :
  words r = Some l -> (In s l <-> lang r s).
Proof.
  revert l s.
  induction r as [| |neg rs| |r1 IH1 r2 IH2|r1 IH1 r2 IH2|r IH];
    intros l s; cbn [words].
  - intros [= <-]. split; [intros []|apply lang_void].
  - intros [= <-]. rewrite lang_eps_empty. cbn [In].
    split; [intros [<-|[]]; reflexivity|intros ->; by left].
  - intros [= <-]. rewrite in_map_iff. split.
    + intros (c & <- & [_ Hc]%filter_In). by constructor.
    + inversion 1; subst. exists c. split; [reflexivity|].
      apply filter_In. split; [apply in_all_ascii|done].
  - intros [= <-]. rewrite in_map_iff. split.
    + intros (c & <- & [_ Hc]%filter_In). constructor.
      by apply negb_true_iff.
    + inversion 1; subst. exists c. split; [reflexivity|].
      apply filter_In. split; [apply in_all_ascii|by apply negb_true_iff].
  - destruct (words r1) as [l1|]; [|discriminate].
    destruct (words r2) as [l2|]; [|discriminate].
    intros [= <-]. rewrite in_flat_map, lang_cat_iff. split.
    + intros (s1 & H1 & (s2 & <- & H2)%in_map_iff).
      exists s1, s2. rewrite <- (IH1 l1), <- (IH2 l2) by done. done.
    + intros (s1 & s2 & -> & H1 & H2).
      exists s1. rewrite (IH1 l1) by done. split; [done|].
      apply in_map. by rewrite (IH2 l2).
  - destruct (words r1) as [l1|]; [|discriminate].
    destruct (words r2) as [l2|]; [|discriminate].
    intros [= <-]. rewrite in_app_iff, lang_alt_iff.
    by rewrite (IH1 l1), (IH2 l2).
  - discriminate.
Qed.

Lemma same_words (l1 l2 : list string) :
  forallb (fun s => existsb (String.eqb s) l2) l1 = true ->
  forall s, In s l1 -> In s l2.
Proof.
  rewrite forallb_forall. intros H s Hs.
  apply H, existsb_exists in Hs as (s' & Hs' & ->%String.eqb_eq). done.
Qed.

Lemma in_decimals (s : string) (bound : nat) :
  In s (map decimal (List.seq 0 (S bound)))
  <-> exists n, (n <= bound)%nat /\ s = decimal n.
Proof.
  rewrite in_map_iff. split.
  - intros (n & <- & Hn%in_seq). exists n. split; [lia|done].
  - intros (n & Hn & ->). exists n. split; [done|]. apply in_seq. lia.
Qed.

(** The octet group matches the numerals of 0 to 255 and nothing else. *)
Lemma octet_language (s : string) :
  lang octet s <-> exists n, (n <= 255)%nat /\ s = decimal n.
Proof.
  rewrite <- in_decimals.
  apply symmetry, words_lang. vm_compute. reflexivity.
Qed.

(** The prefix group matches the numerals of 0 to 32 and nothing else. *)
Lemma prefix_length_language (s : string) :
  lang prefix_length s <-> exists n, (n <= 32)%nat /\ s = decimal n.
Proof.
  rewrite <- in_decimals.
  destruct (words prefix_length) as [l|] eqn:Hl; [|by vm_compute in Hl].
  rewrite <- (words_lang _ _ s Hl).
  vm_compute in Hl. injection Hl as <-.
  split; apply same_words; vm_compute; reflexivity.
Qed.

Lemma lang_lit (c : ascii) (s : string) : lang (lit c) s <-> s = String c "".
Proof.
  unfold lit. split.
  - inversion 1 as [|neg rs c' Hc| | | | | |]; subst.
    unfold chars_accept, in_ranges in Hc. simpl in Hc.
    rewrite orb_false_r, andb_true_iff, !Nat.leb_le in Hc.
    assert (nat_of_ascii c' = nat_of_ascii c) as Heq by lia.
    f_equal. rewrite <- (ascii_nat_embedding c'), Heq.
    apply ascii_nat_embedding.
  - intros ->. constructor. unfold chars_accept, in_ranges. simpl.
    by rewrite Nat.leb_refl.
Qed.

Lemma IPv4_parsed : parse IPv4Converter_regex = Some (Cat address octet).
Proof. reflexivity. Qed.

Lemma Cidr_parsed :
  parse CidrConverter_regex
  = Some (Cat address (Cat octet (Cat (lit "/") prefix_length))).
Proof. reflexivity. Qed.

Lemma Email_parsed :
  parse EmailConverter_regex
  = Some (Cat (Cat email_chars (Star email_chars))
            (Cat (lit "@")
               (Cat (Cat email_chars (Star email_chars))
                  (Cat (lit ".") (Cat email_chars (Star email_chars)))))).
Proof. reflexivity. Qed.

Lemma octet_dot_language (s : string) :
  lang (Cat octet dot) s
  <-> exists n, (n <= 255)%nat /\ s = decimal n +:+ ".".
Proof.
  rewrite lang_cat_iff. split.
  - intros (s1 & s2 & -> & (n & Hn & ->)%octet_language & ->%lang_lit).
    by exists n.
  - intros (n & Hn & ->). exists (decimal n), ".".
    split; [reflexivity|]. split; [apply octet_language; by exists n|].
    by apply lang_lit.
Qed.

Lemma address_language (s : string) :
  lang address s
  <-> exists a b c, (a <= 255)%nat /\ (b <= 255)%nat /\ (c <= 255)%nat
        /\ s = decimal a +:+ "." +:+ decimal b +:+ "." +:+ decimal c +:+ ".".
Proof.
  unfold address. rewrite !lang_cat_iff. split.
  - intros (s1 & s23 & -> & (a & Ha & ->)%octet_dot_language & H23).
    apply lang_cat_iff in H23
      as (s2 & s3 & -> & (b & Hb & ->)%octet_dot_language
          & (c & Hc & ->)%octet_dot_language).
    exists a, b, c. repeat split; try done.
    by rewrite !append_assoc.
  - intros (a & b & c & Ha & Hb & Hc & ->).
    exists (decimal a +:+ "."), ((decimal b +:+ ".") +:+ (decimal c +:+ ".")).
    split; [by rewrite !append_assoc|].
    split; [apply octet_dot_language; by exists a|].
    apply lang_cat; apply octet_dot_language; [by exists b|by exists c].
Qed.

(** The pattern of [IPv4Converter] matches the dotted quads with each part
    between 0 and 255, written without leading zeros, and nothing else. *)
Lemma IPv4_language (s : string) :
  lang (Cat address octet) s
  <-> exists a b c d,
        (a <= 255)%nat /\ (b <= 255)%nat /\ (c <= 255)%nat /\ (d <= 255)%nat
        /\ s = dotted a b c d.
Proof.
  unfold dotted. rewrite lang_cat_iff. split.
  - intros (s1 & s2 & ->
            & (a & b & c & Ha & Hb & Hc & ->)%address_language
            & (d & Hd & ->)%octet_language).
    exists a, b, c, d. repeat split; try done.
    by rewrite !append_assoc.
  - intros (a & b & c & d & Ha & Hb & Hc & Hd & ->).
    exists (decimal a +:+ "." +:+ decimal b +:+ "." +:+ decimal c +:+ "."),
      (decimal d).
    split; [by rewrite !append_assoc|].
    split; [apply address_language; by exists a, b, c|].
    apply octet_language; by exists d.
Qed.

(** The pattern of [CidrConverter] matches such a dotted quad followed by a
    slash and a numeral between 0 and 32, and nothing else. *)
Lemma Cidr_language (s : string) :
  lang (Cat address (Cat octet (Cat (lit "/") prefix_length))) s
  <-> exists a b c d p,
        (a <= 255)%nat /\ (b <= 255)%nat /\ (c <= 255)%nat /\ (d <= 255)%nat
        /\ (p <= 32)%nat
        /\ s = dotted a b c d +:+ "/" +:+ decimal p.
Proof.
  unfold dotted. rewrite lang_cat_iff. split.
  - intros (s1 & s2 & ->
            & (a & b & c & Ha & Hb & Hc & ->)%address_language & H2).
    apply lang_cat_iff in H2 as (s3 & s4 & -> & (d & Hd & ->)%octet_language & H4).
    apply lang_cat_iff in H4
      as (s5 & s6 & -> & ->%lang_lit & (n & Hn & ->)%prefix_length_language).
    exists a, b, c, d, n. repeat split; try done.
    by rewrite !append_assoc.
  - intros (a & b & c & d & n & Ha & Hb & Hc & Hd & Hn & ->).
    exists (decimal a +:+ "." +:+ decimal b +:+ "." +:+ decimal c +:+ "."),
      (decimal d +:+ "/" +:+ decimal n).
    split; [by rewrite !append_assoc|].
    split; [apply address_language; by exists a, b, c|].
    apply lang_cat; [apply octet_language; by exists d|].
    apply (lang_cat _ _ "/"); [by apply lang_lit|].
    apply prefix_length_language; by exists n.
Qed.

Lemma single_range (x c : ascii) :
  (nat_of_ascii x <=? nat_of_ascii c)%nat && (nat_of_ascii c <=? nat_of_ascii x)%nat
  = Ascii.eqb c x.
Proof.
  destruct (Ascii.eqb_spec c x) as [->|Hne]; [by rewrite Nat.leb_refl|].
  apply andb_false_iff. rewrite !Nat.leb_gt.
  assert (nat_of_ascii c <> nat_of_ascii x); [|lia].
  intros H. apply Hne.
  by rewrite <- (ascii_nat_embedding c), H, ascii_nat_embedding.
Qed.

Lemma email_chars_accept (c : ascii) :
  chars_accept true [("@", "@"); (" ", " ")]%char c = email_char c.
Proof.
  unfold chars_accept, in_ranges, email_char. cbn [existsb].
  by rewrite !single_range, orb_false_r, xorb_true_l, negb_orb.
Qed.

Lemma email_chars_language (s : string) :
  lang email_chars s <-> exists c, email_char c = true /\ s = String c "".
Proof.
  unfold email_chars. split.
  - inversion 1 as [|neg rs c Hc| | | | | |]; subst.
    exists c. by rewrite <- email_chars_accept.
  - intros (c & Hc & ->). constructor. by rewrite email_chars_accept.
Qed.

Lemma email_star_language (s : string) :
  lang (Star email_chars) s <-> all_chars email_char s = true.
Proof.
  split.
  - intros H. remember (Star email_chars) as r eqn:Hr.
    induction H as [|neg rs c' Hc|c' Hc|r1 r2 s1 s2 H1 _ H2 _|r1 r2 s' H' _
                    |r1 r2 s' H' _|r'|r' s1 s2 H1 _ H2 IH2];
      try discriminate; [reflexivity|].
    injection Hr as ->.
    apply email_chars_language in H1 as (c & Hc & ->).
    rewrite append_cons, append_empty_l. cbn [all_chars].
    by rewrite Hc, IH2.
  - induction s as [|c s IH]; cbn [all_chars]; [constructor|].
    intros [Hc Hs]%andb_true_iff.
    apply (lang_star_cons _ (String c "") s); [|by apply IH].
    apply email_chars_language. by exists c.
Qed.

Lemma email_part_language (s : string) :
  lang (Cat email_chars (Star email_chars)) s <-> email_part s.
Proof.
  unfold email_part. rewrite lang_cat_iff. split.
  - intros (s1 & s2 & -> & (c & Hc & ->)%email_chars_language
            & H2%email_star_language).
    rewrite append_cons, append_empty_l. cbn [all_chars].
    by rewrite Hc, H2.
  - destruct s as [|c s]; [by intros [? _]|]. cbn [all_chars].
    intros [_ [Hc Hs]%andb_true_iff].
    exists (String c ""), s. split; [reflexivity|].
    split; [apply email_chars_language; by exists c|].
    by apply email_star_language.
Qed.

(** The pattern of [EmailConverter] matches [u@v.w] with [u], [v] and [w]
    non-empty and free of [@] and of spaces, and nothing else. *)
Lemma Email_language (s : string) :
  lang (Cat (Cat email_chars (Star email_chars))
          (Cat (lit "@")
             (Cat (Cat email_chars (Star email_chars))
                (Cat (lit ".") (Cat email_chars (Star email_chars)))))) s
  <-> exists u v w,
        email_part u /\ email_part v /\ email_part w
        /\ s = u +:+ "@" +:+ v +:+ "." +:+ w.
Proof.
  rewrite lang_cat_iff. split.
  - intros (u & s1 & -> & Hu%email_part_language & H1).
    apply lang_cat_iff in H1 as (a & s2 & -> & ->%lang_lit & H2).
    apply lang_cat_iff in H2 as (v & s3 & -> & Hv%email_part_language & H3).
    apply lang_cat_iff in H3 as (d & w & -> & ->%lang_lit & Hw%email_part_language).
    by exists u, v, w.
  - intros (u & v & w & Hu & Hv & Hw & ->).
    exists u, ("@" +:+ v +:+ "." +:+ w). split; [reflexivity|].
    split; [by apply email_part_language|].
    apply (lang_cat _ _ "@"); [by apply lang_lit|].
    apply lang_cat; [by apply email_part_language|].
    apply (lang_cat _ _ "."); [by apply lang_lit|].
    by apply email_part_language.
Qed.

(** C8.  The pattern of the email converter is the string
    [[^@ ]+@[^@ ]+\.[^@ ]+], whose words are the [u@v.w] above.  The pattern
    of the IPv4 converter matches all of [192.168.1.1] and of
    [255.255.255.255]; its words are the dotted quads of numerals from 0 to
    255.  The pattern of the CIDR converter matches all of [10.0.0.0/8] and
    not [10.0.0.0/33]; its words are such a quad, a slash and a numeral from
    0 to 32. *)
Theorem converter_patterns :
  EmailConverter_regex = "[^@ ]+@[^@ ]+\.[^@ ]+"
  /\ (exists email,
        parse EmailConverter_regex = Some email
        /\ forall s, lang email s
             <-> exists u v w, email_part u /\ email_part v /\ email_part w
                   /\ s = u +:+ "@" +:+ v +:+ "." +:+ w)
  /\ (exists ipv4,
        parse IPv4Converter_regex = Some ipv4
        /\ lang ipv4 "192.168.1.1"
        /\ lang ipv4 "255.255.255.255"
        /\ fullmatch IPv4Converter_regex "192.168.1.1" = Some true
        /\ fullmatch IPv4Converter_regex "255.255.255.255" = Some true
        /\ forall s, lang ipv4 s
             <-> exists a b c d,
                   (a <= 255)%nat /\ (b <= 255)%nat /\ (c <= 255)%nat
                   /\ (d <= 255)%nat /\ s = dotted a b c d)
  /\ (exists cidr,
        parse CidrConverter_regex = Some cidr
        /\ lang cidr "10.0.0.0/8"
        /\ ~ lang cidr "10.0.0.0/33"
        /\ fullmatch CidrConverter_regex "10.0.0.0/8" = Some true
        /\ fullmatch CidrConverter_regex "10.0.0.0/33" = Some false
        /\ forall s, lang cidr s
             <-> exists a b c d p,
                   (a <= 255)%nat /\ (b <= 255)%nat /\ (c <= 255)%nat
                   /\ (d <= 255)%nat /\ (p <= 32)%nat
                   /\ s = dotted a b c d +:+ "/" +:+ decimal p).
Proof.
  split; [reflexivity|]. split; [|split].
  - eexists. split; [apply Email_parsed|apply Email_language].
  - eexists. split; [apply IPv4_parsed|].
    split; [by apply matches_lang|]. split; [by apply matches_lang|].
    split; [reflexivity|]. split; [reflexivity|]. apply IPv4_language.
  - eexists. split; [apply Cidr_parsed|].
    split; [by apply matches_lang|].
    split; [rewrite <- matches_lang; by vm_compute|].
    split; [reflexivity|]. split; [reflexivity|]. apply Cidr_language.
Qed.

End ConverterFacts.

(* ================================================================== *)
(** * Further properties of the dispatcher                             *)
(* ================================================================== *)

Module DispatchMore.
Import Restle DispatchSpec MoreSpec DispatchFacts.

Section More.

Variable json_dumps : pyval -> result string.
Variable response_class : option (string * pyattr).

Local Abbreviation dispatch_request := (dispatch_request json_dumps response_class).
Local Abbreviation build_response := (build_response response_class).
Local Abbreviation respond := (respond json_dumps response_class).

(** Past the two checks, [dispatch_request] is the hook, then the handler,
    then the wrapping of its output. *)
Lemma dispatch_passes (view : resource) (self : API) (request : Request)
    (args : pyargs) (h : handler) :
  ~ non_json_body request ->
  lower (req_method request) ∈ supported_methods ->
  attrs view !! lower (req_method request) = Some h ->
  dispatch_request view request args self
  = match dispatch_init view args (with_method self request) with
    | (s1, Return a1) =>
        match h a1 s1 with
        | (s2, Return output) => respond request output s2
        | (s2, Raise e) => (s2, Raise e)
        end
    | (s1, Raise e) => (s1, Raise e)
    end.
Proof.
  intros H Hm Hh.
  rewrite <- non_json_body_test, not_true_iff_false in H.
  unfold Restle.dispatch_request, bind, set_method, get_self. simpl.
  rewrite H. simpl.
  rewrite (bool_decide_eq_true_2 _ Hm), Hh. simpl.
  fold (with_method self request).
  destruct (dispatch_init view args (with_method self request)) as [s1 [a1|e1]];
    [|reflexivity].
  destruct (h a1 s1) as [s2 [o|e2]]; [|reflexivity].
  unfold DispatchSpec.respond. case_bool_decide; [reflexivity|].
  destruct o; try reflexivity;
    unfold lift, ret; simpl; by destruct (json_dumps _).
Qed.



(** An exception of the hook, of the handler or of [json.dumps] leaves
    [dispatch_request] as it was raised, with the instance as it stood; a
    hook that raises keeps the handler from running. *)
Theorem dispatch_errors_propagate (view : resource) (self : API)
    (request : Request) (args : pyargs) (h : handler) :
  ~ non_json_body request ->
  lower (req_method request) ∈ supported_methods ->
  attrs view !! lower (req_method request) = Some h ->
  (forall s1 e,
     dispatch_init view args (with_method self request) = (s1, Raise e) ->
     dispatch_request view request args self = (s1, Raise e))
  /\ (forall s1 a1 s2 e,
        dispatch_init view args (with_method self request) = (s1, Return a1) ->
        h a1 s1 = (s2, Raise e) ->
        dispatch_request view request args self = (s2, Raise e))
  /\ (forall s1 a1 s2 output e,
        dispatch_init view args (with_method self request) = (s1, Return a1) ->
        h a1 s1 = (s2, Return output) ->
        type_of output <> BaseResponse ->
        output <> PyNone ->
        json_dumps output = Raise e ->
        dispatch_request view request args self = (s2, Raise e)).
Proof.
  intros H Hm Hh. rewrite (dispatch_passes _ _ _ _ h) by done.
  split; [|split].
  - by intros s1 e ->.
  - by intros s1 a1 s2 e -> ->.
  - intros s1 a1 s2 output e -> -> Ht Hn He.
    unfold DispatchSpec.respond. rewrite bool_decide_eq_false_2 by done.
    destruct output; try done; by rewrite He.
Qed.



(** [build_response] fails exactly when no status override is set and the
    lower-cased method has no default, and then with the [KeyError] of
    that method; with an override it answers for any method. *)
Theorem build_response_key_error (self : API) (request : Request)
    (body : option string) :
  let m := lower (req_method request) in
  ((exists e, (build_response request body self).2 = Raise e)
   <-> status_override self = None /\ method_default m = None)
  /\ (status_override self = None -> method_default m = None ->
      build_response request body self = (self, Raise (KeyError m)))
  /\ (forall s, status_override self = Some s ->
      build_response request body self
      = (self,
         Return (PyResponse response_class
                   {| body := body;
                      status := chosen_status (Some s) 0 (empty_body body);
                      mimetype := if empty_body body then None
                                  else Some "application/json";
                      headers := response_headers self |}))).
Proof.
  intros m.
  assert (Hfail : status_override self = None -> method_default m = None ->
                  build_response request body self = (self, Raise (KeyError m))).
  { intros Ho Hd. unfold Restle.build_response, bind, get_self, lift.
    unfold status_or_default. rewrite method_default_lookup. fold m.
    rewrite Hd. unfold status_override in Ho.
    destruct (response_status self) as [s|]; [|reflexivity].
    by destruct (s =? 0). }
  assert (Hset : forall s, status_override self = Some s ->
                 status_or_default self request = Return s).
  { intros s Ho. unfold status_or_default. unfold status_override in Ho.
    destruct (response_status self) as [s0|]; [|discriminate].
    destruct (s0 =? 0); [discriminate|]. by injection Ho as ->. }
  split; [|split; [exact Hfail|]].
  - split.
    + intros [e He].
      destruct (status_override self) as [s|] eqn:Ho.
      { unfold Restle.build_response, bind, get_self, lift, ret in He.
        by rewrite (Hset s eq_refl) in He. }
      split; [reflexivity|].
      destruct (method_default m) as [d|] eqn:Hd; [|reflexivity].
      by rewrite (build_response_rule _ _ _ _ d Hd) in He.
    + intros [Ho Hd]. exists (KeyError m). by rewrite Hfail.
  - intros s Ho. unfold Restle.build_response, bind, get_self, lift, ret.
    rewrite (Hset s Ho), empty_body_truthy. reflexivity.
Qed.

(** A rejected request, seen through the error handler [restle] installs:
    when [json.dumps] turns the one-entry error body into [s], the client
    gets [s] with status 415 (respectively 405) and MIME type
    [application/json]. *)
Theorem rejected_request_response (view : resource) (self : API)
    (request : Request) (args : pyargs) (s : string) :
  (non_json_body request ->
   json_dumps
     (PyDict {[ "error_message" :=
                  PyStr "Request payload mimetype must be 'application/json'" ]})
   = Return s ->
   exists e,
     dispatch_request view request args self
     = (with_method self request, Raise (ApiErrorExn e))
     /\ handle_invalid_usage json_dumps response_class e
        = Return (PyResponse response_class
                    {| body := Some s; status := 415;
                       mimetype := Some "application/json"; headers := ∅ |}))
  /\ (~ non_json_body request ->
      lower (req_method request) ∉ supported_methods
      \/ attrs view !! lower (req_method request) = None ->
      json_dumps
        (PyDict {[ "error_message" := PyStr "HTTP method is not supported" ]})
      = Return s ->
      exists e,
        dispatch_request view request args self
        = (with_method self request, Raise (ApiErrorExn e))
        /\ handle_invalid_usage json_dumps response_class e
           = Return (PyResponse response_class
                       {| body := Some s; status := 405;
                          mimetype := Some "application/json"; headers := ∅ |})).
Proof.
  split.
  - intros H Hs. eexists. split; [by apply dispatch_415|].
    unfold handle_invalid_usage, api_error_response.
    rewrite ApiErrorFacts.to_dict_insert. simpl.
    change (<["error_message" := ?v]> ∅) with ({[ "error_message" := v ]} : gmap string pyval).
    by rewrite Hs.
  - intros H Hm Hs. eexists. split; [by apply dispatch_405|].
    unfold handle_invalid_usage, api_error_response.
    rewrite ApiErrorFacts.to_dict_insert. simpl.
    change (<["error_message" := ?v]> ∅) with ({[ "error_message" := v ]} : gmap string pyval).
    by rewrite Hs.
Qed.

(** The response of an error: [json.dumps] of the payload with
    [error_message] set, at the status code given or 400, as
    [application/json] and without headers; an error of [json.dumps] is
    raised instead. *)
Theorem error_response_shape (m : string) (c : option Z)
    (p : option (gmap string pyval)) :
  api_error_response json_dumps response_class (ApiError.init m c p)
  = match json_dumps (PyDict (<["error_message" := PyStr m]> (default ∅ p))) with
    | Return s =>
        Return (PyResponse response_class
                  {| body := Some s; status := default 400 c;
                     mimetype := Some "application/json"; headers := ∅ |})
    | Raise e => Raise e
    end.
Proof.
  unfold api_error_response. rewrite ApiErrorFacts.to_dict_insert. simpl.
  destruct (json_dumps _); [|reflexivity]. by destruct c.
Qed.

End More.

Lemma put_returns_base_response :
  handler_returns guarded API_class_attrs put_widget one_arg
    (with_method API_class_attrs put_widget) (PyResponse None accepted).
Proof.
  split; [intros [_ H]; by apply H|].
  split; [set_solver|].
  by eexists (fun _ => ret (PyResponse None accepted)), _, _.
Qed.

Lemma dispatch_base_response_witness :
  dispatch_request sample_dumps flask_response guarded put_widget one_arg
    API_class_attrs
  = (with_method API_class_attrs put_widget, Return (PyResponse None accepted)).
Proof.
  apply (dispatch_base_response sample_dumps flask_response guarded
           API_class_attrs (with_method API_class_attrs put_widget)
           put_widget one_arg (PyResponse None accepted)
           put_returns_base_response).
  reflexivity.
Defined.


Lemma dispatch_errors_propagate_witness :
  dispatch_request sample_dumps flask_response guarded get_widgets no_args
    API_class_attrs
  = (with_method API_class_attrs get_widgets, Raise id_required)
  /\ dispatch_request sample_dumps flask_response guarded get_widgets one_arg
       API_class_attrs
     = (with_method API_class_attrs get_widgets, Raise not_found).
Proof.
  split.
  - apply (dispatch_errors_propagate sample_dumps flask_response guarded
             API_class_attrs get_widgets no_args (fun _ => raise not_found));
      [intros [H _]; by apply H|set_solver|reflexivity|reflexivity].
  - apply (dispatch_errors_propagate sample_dumps flask_response guarded
             API_class_attrs get_widgets one_arg (fun _ => raise not_found))
      with (s1 := with_method API_class_attrs get_widgets) (a1 := one_arg);
      [intros [H _]; by apply H|set_solver|reflexivity|reflexivity|reflexivity].
Defined.



Lemma build_response_key_error_witness :
  Restle.build_response flask_response head_request None API_class_attrs
  = (API_class_attrs, Raise (KeyError "head")).
Proof.
  apply (build_response_key_error flask_response API_class_attrs head_request None);
    reflexivity.
Defined.

Lemma rejected_request_response_witness :
  exists e,
    dispatch_request error_dumps flask_response widgets post_form no_args
      API_class_attrs
    = (with_method API_class_attrs post_form, Raise (ApiErrorExn e))
    /\ handle_invalid_usage error_dumps flask_response e
       = Return (PyResponse flask_response
                   {| body := Some "{}"; status := 415;
                      mimetype := Some "application/json"; headers := ∅ |}).
Proof.
  apply (rejected_request_response error_dumps flask_response widgets
           API_class_attrs post_form no_args "{}").
  - split; discriminate.
  - reflexivity.
Defined.

End DispatchMore.

(* ================================================================== *)
(** * Further properties of [api_error], [register_api], the encoders
      and [restle]                                                     *)
(* ================================================================== *)

Module ApiErrorMore.
Import ApiError ApiErrorFacts.

(** The keys of [to_dict] are those of the payload and [error_message]; the
    dict is never empty, and it has one entry more than the payload unless
    the payload had an [error_message] of its own. *)
Theorem to_dict_keys (e : api_error) :
  let p := default ∅ (payload e) in
  dom (to_dict e) = ({["error_message"]} ∪ dom p : gset string)
  /\ to_dict e <> ∅
  /\ size (to_dict e)
     = match p !! "error_message" with
       | Some _ => size p
       | None => S (size p)
       end.
Proof.
  intros p. rewrite to_dict_insert. fold p.
  split; [apply dom_insert_L|].
  split; [apply insert_non_empty|].
  rewrite map_size_insert. by destruct (p !! "error_message").
Qed.

(** Using the body of one error as the payload of another keeps the
    entries of the first payload and takes the message of the second. *)
Theorem to_dict_rewrap (m1 m2 : string) (c1 c2 : option Z)
    (p : option (gmap string pyval)) :
  to_dict (init m2 c2 (Some (to_dict (init m1 c1 p))))
  = to_dict (init m2 c1 p).
Proof. rewrite !to_dict_insert. simpl. apply insert_insert_eq. Qed.

End ApiErrorMore.

Module RegisterMore.
Import Restle RegisterFacts.

Lemma length_append (s1 s2 : string) :
  String.length (s1 +:+ s2) = (String.length s1 + String.length s2)%nat.
Proof.
  induction s1 as [|c s1 IH]; [reflexivity|].
  change (String c s1 +:+ s2) with (String c (s1 +:+ s2)).
  simpl. by rewrite IH.
Qed.

Lemma item_rule_longer (url pk_type pk : string) :
  item_rule url pk_type pk <> url.
Proof.
  intros H. apply (f_equal String.length) in H.
  unfold item_rule in H. rewrite length_append in H.
  change ("<" +:+ pk_type +:+ ":" +:+ pk +:+ ">")
    with (String "<" (pk_type +:+ ":" +:+ pk +:+ ">")) in H.
  simpl in H. lia.
Qed.

Section Rules.

Context {V F : Type}.
Variable as_view : V -> string -> F.

(** [register_api] keeps the rules the blueprint had, in place, and adds
    three, all with the one view function made from the class; registering
    two resources gives the routes of the first followed by those of the
    second. *)
Theorem register_api_extends (bp : list (url_rule F)) (v1 v2 : V)
    (e1 u1 pk1 t1 e2 u2 pk2 t2 : string) :
  let bp1 := register_api as_view bp v1 e1 u1 pk1 t1 in
  let bp2 := register_api as_view bp1 v2 e2 u2 pk2 t2 in
  take (length bp) bp1 = bp
  /\ length bp1 = (length bp + 3)%nat
  /\ Forall (fun r => view_func r = as_view v1 e1) (drop (length bp) bp1)
  /\ routes bp2
     = (routes bp
        ++ [("GET", u1); ("POST", u1); ("GET", item_rule u1 t1 pk1);
            ("PUT", item_rule u1 t1 pk1); ("DELETE", item_rule u1 t1 pk1)]
        ++ [("GET", u2); ("POST", u2); ("GET", item_rule u2 t2 pk2);
            ("PUT", item_rule u2 t2 pk2); ("DELETE", item_rule u2 t2 pk2)])%list.
Proof.
  cbv zeta. rewrite !register_api_rules.
  split; [by rewrite take_app_length|].
  split; [rewrite length_app; simpl; lia|].
  split; [rewrite drop_app_length; by repeat constructor|].
  by rewrite !routes_app, <- app_assoc.
Qed.

(** Of the routes [register_api] adds, none is a PATCH route, POST is at
    the base URL only, and PUT and DELETE are at the item rule only, which
    is never the base URL. *)
Theorem register_api_methods (view : V) (endpoint url pk pk_type m u : string) :
  In (m, u) (routes (register_api as_view [] view endpoint url pk pk_type)) ->
  m <> "PATCH"
  /\ (m = "POST" -> u = url)
  /\ (m = "PUT" \/ m = "DELETE" ->
      u = item_rule url pk_type pk /\ u <> url).
Proof.
  rewrite register_api_rules. simpl.
  pose proof (item_rule_longer url pk_type pk) as Hne.
  intros [[= <- <-]|[[= <- <-]|[[= <- <-]|[[= <- <-]|[[= <- <-]|[]]]]]];
    (split; [discriminate|]); split; try discriminate; try done;
    intros [?|?]; try discriminate; done.
Qed.

End Rules.

Lemma register_api_methods_witness :
  "PUT" <> "PATCH"
  /\ ("PUT" = "POST" -> "/widgets/<int:id>" = "/widgets/")
  /\ ("PUT" = "PUT" \/ "PUT" = "DELETE" ->
      "/widgets/<int:id>" = item_rule "/widgets/" "int" "id"
      /\ "/widgets/<int:id>" <> "/widgets/").
Proof.
  apply (register_api_methods (fun (v e : string) => (v, e)) "WidgetAPI"
           "widget_api" "/widgets/" "id" "int" "PUT" "/widgets/<int:id>").
  simpl. tauto.
Defined.

End RegisterMore.

Module EncoderMore.
Import Restle EncoderSpec EncoderFacts.

Section Compared.

Variable base : pyval -> result pyval.

Lemma exact_builtin_no_attr (v : pyval) :
  type_of v = set_cls \/ type_of v = Arrow ->
  getattr_json_serializer v = AttrAbsent.
Proof.
  destruct v as [| | | | |sub ms|sub iso|sub r|cls a]; simpl;
    intros [H|H]; try discriminate;
    destruct sub as [[n a]|]; simpl in *; try discriminate; reflexivity.
Qed.

(** The two encoder classes of the module, side by side.  Both call a
    callable [json_serializer] first.  They agree on every value whose
    class is neither exactly [set] nor exactly [Arrow]; those two kinds
    [JsonEncoder] hands to the base encoder, where [CustomJSONEncoder]
    gives the list of members and the ISO string. *)
Theorem encoders_compared (v : pyval) :
  (callable (getattr_json_serializer v) = true ->
   JsonEncoder_default base v = call0 (getattr_json_serializer v)
   /\ CustomJSONEncoder_default base v = call0 (getattr_json_serializer v))
  /\ (type_of v <> set_cls -> type_of v <> Arrow ->
      JsonEncoder_default base v = CustomJSONEncoder_default base v)
  /\ (type_of v = set_cls ->
      JsonEncoder_default base v = base v
      /\ CustomJSONEncoder_default base v = Return (PyList (list_of_set v)))
  /\ (type_of v = Arrow ->
      JsonEncoder_default base v = base v
      /\ CustomJSONEncoder_default base v = Return (PyStr (isoformat v))).
Proof.
  unfold JsonEncoder_default, CustomJSONEncoder_default.
  split; [by intros ->|]. split; [|split].
  - intros Hs Ha. destruct (callable _); [reflexivity|].
    by rewrite !bool_decide_eq_false_2.
  - intros Hs. rewrite (exact_builtin_no_attr v (or_introl Hs)). simpl.
    by rewrite bool_decide_eq_true_2.
  - intros Ha. rewrite (exact_builtin_no_attr v (or_intror Ha)). simpl.
    rewrite bool_decide_eq_false_2 by (rewrite Ha; discriminate).
    by rewrite bool_decide_eq_true_2.
Qed.

End Compared.

Lemma encoders_compared_witness :
  JsonEncoder_default not_serializable (PySet None [PyInt 3])
  = Raise (TypeError "is not JSON serializable")
  /\ CustomJSONEncoder_default not_serializable (PySet None [PyInt 3])
     = Return (PyList [PyInt 3]).
Proof.
  apply (encoders_compared not_serializable (PySet None [PyInt 3])).
  reflexivity.
Defined.

End EncoderMore.

Module AppFacts.
Import Converters App.

Lemma extend_converters_lookup (c : gmap string converter) (k : string) :
  Converters.extend_converters c !! k
  = if decide (k = "cidr") then Some CidrConverter
    else if decide (k = "ip") then Some IPv4Converter
    else if decide (k = "email") then Some EmailConverter
    else if decide (k = "regex") then Some RegexConverter
    else c !! k.
Proof.
  unfold Converters.extend_converters. rewrite !lookup_insert.
  repeat case_decide; congruence.
Qed.

(** [restle] binds the four converter names to the four classes, whatever
    they were bound to, installs the encoder, the decoder and the handler
    of [api_error], and leaves every other converter and error handler as
    it was; calling it, or [extend_converters], again changes nothing. *)
Theorem restle_installs (a : app) :
  converters (restle a) !! "regex" = Some RegexConverter
  /\ converters (restle a) !! "email" = Some EmailConverter
  /\ converters (restle a) !! "ip" = Some IPv4Converter
  /\ converters (restle a) !! "cidr" = Some CidrConverter
  /\ (forall k, k ∉ ["regex"; "email"; "ip"; "cidr"] ->
        converters (restle a) !! k = converters a !! k)
  /\ json_encoder (restle a) = CustomJSONEncoder
  /\ json_decoder (restle a) = CustomJSONDecoder
  /\ error_handlers (restle a) !! "api_error" = Some handle_invalid_usage
  /\ (forall k, k <> "api_error" ->
        error_handlers (restle a) !! k = error_handlers a !! k)
  /\ restle (restle a) = restle a
  /\ extend_converters (restle a) = restle a.
Proof.
  assert (Hidem : forall c,
            Converters.extend_converters (Converters.extend_converters c)
            = Converters.extend_converters c).
  { intros c. apply map_eq. intros k. rewrite !extend_converters_lookup.
    by repeat case_decide. }
  unfold restle, extend_converters. simpl.
  repeat split; try reflexivity;
    try (rewrite extend_converters_lookup; reflexivity);
    try apply lookup_insert_eq.
  - intros k Hk. rewrite extend_converters_lookup.
    rewrite !not_elem_of_cons in Hk. destruct Hk as (? & ? & ? & ? & _).
    by repeat case_decide.
  - intros k Hk. by rewrite lookup_insert_ne.
  - by rewrite Hidem, insert_insert_eq.
  - by rewrite Hidem.
Qed.

Lemma restle_installs_witness :
  converters
    (restle {| converters := {[ "slug" := RegexConverter ]};
               json_encoder := FlaskJSONEncoder;
               json_decoder := FlaskJSONDecoder;
               error_handlers := ∅ |}) !! "slug"
  = Some RegexConverter.
Proof.
  destruct (restle_installs {| converters := {[ "slug" := RegexConverter ]};
                               json_encoder := FlaskJSONEncoder;
                               json_decoder := FlaskJSONDecoder;
                               error_handlers := ∅ |})
    as (_ & _ & _ & _ & H & _).
  rewrite H; [reflexivity|].
  rewrite !not_elem_of_cons. repeat split; try discriminate.
  apply not_elem_of_nil.
Defined.

End AppFacts.

(* ================================================================== *)
(** * Further properties of the converters                             *)
(* ================================================================== *)

Module ConverterMore.
Import Regex Converters RegexFacts ConverterSpec ConverterFacts MoreSpec.

Local Open Scope string_scope.

Lemma fullmatch_parsed (pattern : string) (r : regex) (s : string) :
  parse pattern = Some r ->
  (fullmatch pattern s = Some true <-> lang r s)
  /\ (fullmatch pattern s = Some false <-> ~ lang r s).
Proof.
  intros Hp. unfold fullmatch. rewrite Hp, <- matches_lang.
  destruct (matches r s); split; split; try done; by intros [=].
Qed.

Lemma all_chars_append (p : ascii -> bool) (s1 s2 : string) :
  all_chars p (s1 +:+ s2) = all_chars p s1 && all_chars p s2.
Proof.
  induction s1 as [|c s1 IH]; [reflexivity|].
  rewrite append_cons. cbn [all_chars]. by rewrite IH, andb_assoc.
Qed.

Lemma count_char_append (c : ascii) (s1 s2 : string) :
  count_char c (s1 +:+ s2) = (count_char c s1 + count_char c s2)%nat.
Proof.
  induction s1 as [|c1 s1 IH]; [reflexivity|].
  rewrite append_cons. cbn [count_char]. rewrite IH. lia.
Qed.

Lemma all_chars_weaken (p q : ascii -> bool) (s : string) :
  (forall c, p c = true -> q c = true) ->
  all_chars p s = true -> all_chars q s = true.
Proof.
  intros Hpq. induction s as [|c s IH]; [done|]. cbn [all_chars].
  rewrite !andb_true_iff. intros [Hc Hs]. split; [by apply Hpq|by apply IH].
Qed.

Lemma count_char_absent (p : ascii -> bool) (c : ascii) (s : string) :
  p c = false -> all_chars p s = true -> count_char c s = 0%nat.
Proof.
  intros Hc. induction s as [|c' s IH]; [done|]. cbn [all_chars count_char].
  intros [Hc' Hs]%andb_true_iff. rewrite (IH Hs).
  destruct (Ascii.eqb_spec c c') as [->|_]; [congruence|reflexivity].
Qed.

(** The numerals of 0 to 255 have one to three characters, all digits. *)
Lemma small_numeral (n : nat) :
  (n <= 255)%nat ->
  (1 <= String.length (decimal n) <= 3)%nat
  /\ all_chars is_digit (decimal n) = true.
Proof.
  intros Hn.
  assert (Hall : forallb (fun n => (1 <=? String.length (decimal n))%nat
                                   && (String.length (decimal n) <=? 3)%nat
                                   && all_chars is_digit (decimal n))
                   (List.seq 0 256) = true) by (vm_compute; reflexivity).
  rewrite forallb_forall in Hall.
  specialize (Hall n). rewrite in_seq, !andb_true_iff, !Nat.leb_le in Hall.
  assert (Hin : (0 <= n < 0 + 256)%nat) by lia.
  destruct (Hall Hin) as [[? ?] ?]. done.
Qed.

Lemma digit_is_digit_or_dot (c : ascii) :
  is_digit c = true -> digit_or_dot c = true.
Proof. unfold digit_or_dot. by intros ->. Qed.

Lemma dotted_shape (a b c d : nat) :
  (a <= 255)%nat -> (b <= 255)%nat -> (c <= 255)%nat -> (d <= 255)%nat ->
  (7 <= String.length (dotted a b c d) <= 15)%nat
  /\ all_chars digit_or_dot (dotted a b c d) = true
  /\ count_char "." (dotted a b c d) = 3%nat.
Proof.
  intros Ha Hb Hc Hd.
  destruct (small_numeral a Ha) as [La Da], (small_numeral b Hb) as [Lb Db],
    (small_numeral c Hc) as [Lc Dc], (small_numeral d Hd) as [Ld Dd].
  unfold dotted.
  rewrite !RegisterMore.length_append, !all_chars_append, !count_char_append.
  rewrite (count_char_absent is_digit "." (decimal a)),
    (count_char_absent is_digit "." (decimal b)),
    (count_char_absent is_digit "." (decimal c)),
    (count_char_absent is_digit "." (decimal d)) by done.
  rewrite (all_chars_weaken is_digit digit_or_dot (decimal a)),
    (all_chars_weaken is_digit digit_or_dot (decimal b)),
    (all_chars_weaken is_digit digit_or_dot (decimal c)),
    (all_chars_weaken is_digit digit_or_dot (decimal d))
    by (done || apply digit_is_digit_or_dot).
  change (String.length ".") with 1%nat.
  change (count_char "." ".") with 1%nat.
  change (all_chars digit_or_dot ".") with true.
  repeat split; try reflexivity; lia.
Qed.

(** Whatever the IPv4 pattern accepts has 7 to 15 characters, all of them
    digits or dots, and exactly three dots. *)
Theorem IPv4_words (s : string) :
  fullmatch IPv4Converter_regex s = Some true ->
  (7 <= String.length s <= 15)%nat
  /\ all_chars digit_or_dot s = true
  /\ count_char "." s = 3%nat.
Proof.
  intros H. apply (fullmatch_parsed _ _ s IPv4_parsed) in H.
  apply IPv4_language in H as (a & b & c & d & Ha & Hb & Hc & Hd & ->).
  by apply dotted_shape.
Qed.


Lemma email_part_shape (u : string) :
  email_part u ->
  (1 <= String.length u)%nat
  /\ count_char "@" u = 0%nat /\ count_char " " u = 0%nat.
Proof.
  intros [Hne Hall]. split; [destruct u; [done|simpl; lia]|].
  split; by apply (count_char_absent email_char).
Qed.

(** Whatever the email pattern accepts has exactly one [@], no space, at
    least one dot and at least five characters. *)
Theorem Email_words (s : string) :
  fullmatch EmailConverter_regex s = Some true ->
  count_char "@" s = 1%nat
  /\ count_char " " s = 0%nat
  /\ (1 <= count_char "." s)%nat
  /\ (5 <= String.length s)%nat.
Proof.
  intros H. apply (fullmatch_parsed _ _ s Email_parsed) in H.
  apply Email_language in H as (u & v & w & Hu & Hv & Hw & ->).
  destruct (email_part_shape u Hu) as (Lu & Au & Su),
    (email_part_shape v Hv) as (Lv & Av & Sv),
    (email_part_shape w Hw) as (Lw & Aw & Sw).
  rewrite !RegisterMore.length_append, !count_char_append.
  rewrite Au, Av, Aw, Su, Sv, Sw.
  change (count_char "@" "@") with 1%nat.
  change (count_char "@" ".") with 0%nat.
  change (count_char " " "@") with 0%nat.
  change (count_char " " ".") with 0%nat.
  change (count_char "." ".") with 1%nat.
  change (String.length "@") with 1%nat.
  change (String.length ".") with 1%nat.
  repeat split; lia.
Qed.

Lemma IPv4_words_witness :
  (7 <= String.length "10.0.0.1" <= 15)%nat
  /\ all_chars digit_or_dot "10.0.0.1" = true
  /\ count_char "." "10.0.0.1" = 3%nat.
Proof. apply (IPv4_words "10.0.0.1"). reflexivity. Defined.


Lemma Email_words_witness :
  count_char "@" "ann@example.org" = 1%nat
  /\ count_char " " "ann@example.org" = 0%nat
  /\ (1 <= count_char "." "ann@example.org")%nat
  /\ (5 <= String.length "ann@example.org")%nat.
Proof. apply (Email_words "ann@example.org"). reflexivity. Defined.

End ConverterMore.
